(** * Automated data pipeline: a shallow embedding and its verification

    The development follows the Python sources of the repository:

    - [src/utils/metrics.py]        : [PipelineMetrics], [DataQualityChecker]
    - [src/simulators/aws_services.py] : [S3Simulator], [GlueSimulator],
                                      [LambdaSimulator], [AthenaSimulator]
    - [src/pipeline/orchestrator.py]: [PipelineOrchestrator]

    Modelling conventions.

    - A pandas [DataFrame] is a header (column labels with their dtype)
      and a list of rows; the number of rows is [len(df)] and survives a
      frame without columns, as the pandas index does.
    - Floating point numbers are exact rationals extended with the IEEE
      special values ([NaN], the two infinities); rounding and signed
      zeros are not modelled.  A missing cell (pandas [NaN]/[None]) is
      the cell [NA].
    - Python dictionaries used as maps are [gmap]s with string keys.
    - The clock, the random generator, [hash], the square root and the
      file system are parameters of the functions that consult them.
    - A Python exception is an explicit [Raised] outcome; the receiver
      state is returned in both cases, as mutation done before a [raise]
      stays visible to the caller. *)

From Stdlib Require Import ZArith QArith Qminmax List String Ascii Bool Lia Lqa.
From stdpp Require Import base option list strings gmap.

Local Open Scope Z_scope.
Local Open Scope Q_scope.
Local Open Scope string_scope.
Local Open Scope list_scope.
Local Open Scope bool_scope.

(* ===================================================================== *)
(** * Numbers *)
(* ===================================================================== *)

Module Float.

(** A [float64] value: a finite rational or an IEEE special value. *)
Inductive fval : Type :=
| Fin (q : Q)
| PInf
| NInf
| NaN.

Definition of_Z (z : Z) : fval := Fin (inject_Z z).

Definition is_nan (x : fval) : bool :=
  match x with NaN => true | _ => false end.

(** "Defined" in the sense of the specification: an ordinary number. *)
Definition is_finite (x : fval) : bool :=
  match x with Fin _ => true | _ => false end.

Definition Qsgn_pos (q : Q) : bool := Qle_bool 0 q.

Definition neg (x : fval) : fval :=
  match x with
  | Fin q => Fin (- q)
  | PInf => NInf
  | NInf => PInf
  | NaN => NaN
  end.

Definition add (x y : fval) : fval :=
  match x, y with
  | NaN, _ | _, NaN => NaN
  | Fin a, Fin b => Fin (a + b)
  | PInf, NInf | NInf, PInf => NaN
  | PInf, _ | _, PInf => PInf
  | NInf, _ | _, NInf => NInf
  end.

(** An infinity times a finite factor. *)
Definition scale_inf (positive : bool) (q : Q) : fval :=
  if Qeq_bool q 0 then NaN
  else if Bool.eqb positive (Qsgn_pos q) then PInf else NInf.

Definition mul (x y : fval) : fval :=
  match x, y with
  | NaN, _ | _, NaN => NaN
  | Fin a, Fin b => Fin (a * b)
  | PInf, Fin b | Fin b, PInf => scale_inf true b
  | NInf, Fin b | Fin b, NInf => scale_inf false b
  | PInf, PInf | NInf, NInf => PInf
  | PInf, NInf | NInf, PInf => NInf
  end.

(** numpy's [true_divide] on scalars: a zero divisor does not raise, it
    yields [nan] (for [0/0]) or an infinity, with a [RuntimeWarning]. *)
Definition div (x y : fval) : fval :=
  match x, y with
  | NaN, _ | _, NaN => NaN
  | Fin a, Fin b =>
      if Qeq_bool b 0 then
        if Qeq_bool a 0 then NaN
        else if Qsgn_pos a then PInf else NInf
      else Fin (a / b)
  | Fin _, (PInf | NInf) => Fin 0
  | PInf, Fin b => if Qsgn_pos b then PInf else NInf
  | NInf, Fin b => if Qsgn_pos b then NInf else PInf
  | (PInf | NInf), (PInf | NInf) => NaN
  end.

(** Equality of two floats as numbers; [NaN] is only compared with
    itself here, which is what the theorems below need. *)
Definition same (x y : fval) : Prop :=
  match x, y with
  | Fin a, Fin b => a == b
  | PInf, PInf | NInf, NInf | NaN, NaN => True
  | _, _ => False
  end.

End Float.

Import Float.

(* ===================================================================== *)
(** * Data frames *)
(* ===================================================================== *)

(** Column dtypes, as far as the program tells them apart: the numeric
    dtypes ([int64]/[float64]), [object] columns of text, timestamps. *)
Inductive dtype : Type := Number | Text | Timestamp.

Definition dtype_eqb (a b : dtype) : bool :=
  match a, b with
  | Number, Number | Text, Text | Timestamp, Timestamp => true
  | _, _ => false
  end.

Inductive cell : Type :=
| Num (q : Q)
| Str (s : string)
| NA.

Definition cell_eqb (a b : cell) : bool :=
  match a, b with
  | Num x, Num y => Qeq_bool x y
  | Str s, Str t => String.eqb s t
  | NA, NA => true
  | _, _ => false
  end.

Definition row : Type := list cell.

Fixpoint row_eqb (r s : row) : bool :=
  match r, s with
  | [], [] => true
  | a :: r', b :: s' => cell_eqb a b && row_eqb r' s'
  | _, _ => false
  end.

Record DataFrame : Type := mkDataFrame {
  columns : list (string * dtype);
  rows : list row
}.

(** [len(df)] and [df.shape]. *)
Definition len (df : DataFrame) : nat := length (rows df).
Definition shape0 (df : DataFrame) : nat := length (rows df).
Definition shape1 (df : DataFrame) : nat := length (columns df).

Definition names (df : DataFrame) : list string := map fst (columns df).

(** [pd.DataFrame()] *)
Definition empty_frame : DataFrame := mkDataFrame [] [].

(** [df.empty]: some axis has length zero. *)
Definition is_empty (df : DataFrame) : bool :=
  (Nat.eqb (shape0 df) 0 || Nat.eqb (shape1 df) 0)%bool.

(** Position of the first column carrying a label. *)
Fixpoint index_of (name : string) (hdr : list (string * dtype)) : option nat :=
  match hdr with
  | [] => None
  | (n, _) :: hdr' =>
      if String.eqb n name then Some O
      else option_map S (index_of name hdr')
  end.

Definition has_column (name : string) (df : DataFrame) : bool :=
  match index_of name (columns df) with Some _ => true | None => false end.

(** The values of the column at a position, one per row. *)
Definition column_at (i : nat) (df : DataFrame) : list cell :=
  map (fun r => nth i r NA) (rows df).

(** [df[name]] as a list of values. *)
Definition get_column (name : string) (df : DataFrame) : option (list cell) :=
  option_map (fun i => column_at i df) (index_of name (columns df)).

(** Replace position [i] of a list. *)
Fixpoint set_nth {A} (i : nat) (x : A) (l : list A) : list A :=
  match i, l with
  | _, [] => []
  | O, _ :: l' => x :: l'
  | S i', y :: l' => y :: set_nth i' x l'
  end.

(** Pair every row with the new value of one of its cells; the values
    assigned by the program always come one per row. *)
Fixpoint zip_rows (f : row -> cell -> row) (rs : list row) (vs : list cell)
  : list row :=
  match rs with
  | [] => []
  | r :: rs' =>
      match vs with
      | [] => f r NA :: zip_rows f rs' []
      | v :: vs' => f r v :: zip_rows f rs' vs'
      end
  end.

(** [df[name] = values]: overwrite the column when the label exists,
    append a new last column otherwise. *)
Definition set_column (name : string) (ty : dtype) (vs : list cell)
  (df : DataFrame) : DataFrame :=
  match index_of name (columns df) with
  | Some i =>
      mkDataFrame (set_nth i (name, ty) (columns df))
                  (zip_rows (fun r v => set_nth i v r) (rows df) vs)
  | None =>
      mkDataFrame (columns df ++ [(name, ty)])
                  (zip_rows (fun r v => r ++ [v]) (rows df) vs)
  end.

(** [df.select_dtypes(include=['number']).columns.tolist()] *)
Definition numeric_columns (df : DataFrame) : list string :=
  map fst (List.filter (fun c => dtype_eqb (snd c) Number) (columns df)).

Definition isnull (c : cell) : bool :=
  match c with NA => true | _ => false end.

Definition as_num (c : cell) : option Q :=
  match c with Num q => Some q | _ => None end.

(** The non-missing numbers of a list of cells ([skipna=True]). *)
Fixpoint present (cs : list cell) : list Q :=
  match cs with
  | [] => []
  | Num q :: cs' => q :: present cs'
  | _ :: cs' => present cs'
  end.

(** [df.duplicated()]: a row is flagged when an earlier row has the same
    values in all columns (missing values compare equal).  pandas returns
    an empty series for an empty frame. *)
Fixpoint duplicated_from (seen : list row) (rs : list row) : list bool :=
  match rs with
  | [] => []
  | r :: rs' => existsb (row_eqb r) seen :: duplicated_from (r :: seen) rs'
  end.

Definition duplicated (df : DataFrame) : list bool :=
  if is_empty df then [] else duplicated_from [] (rows df).

Fixpoint keep_unflagged (rs : list row) (flags : list bool) : list row :=
  match rs, flags with
  | r :: rs', b :: flags' =>
      if b then keep_unflagged rs' flags' else r :: keep_unflagged rs' flags'
  | _, _ => []
  end.

(** [df.drop_duplicates()]; an empty frame is returned as it is. *)
Definition drop_duplicates (df : DataFrame) : DataFrame :=
  if is_empty df then df
  else mkDataFrame (columns df) (keep_unflagged (rows df) (duplicated df)).

(** [df.head(n)]: the first [n] rows, or all but the last [-n] rows. *)
Definition head (n : Z) (df : DataFrame) : DataFrame :=
  if (0 <=? n)%Z then mkDataFrame (columns df) (firstn (Z.to_nat n) (rows df))
  else mkDataFrame (columns df)
         (firstn (len df - Z.to_nat (- n))%nat (rows df)).

(** Every row has one cell per column. *)
Definition rectangular (df : DataFrame) : bool :=
  forallb (fun r => Nat.eqb (length r) (shape1 df)) (rows df).

(** [df] is [df0] with the columns [extra] appended on the right, the
    columns of [df0] untouched. *)
Definition extends (df0 df : DataFrame) (extra : list string) : Prop :=
  rectangular df = true
  /\ len df = len df0
  /\ names df = names df0 ++ extra
  /\ (forall n, In n (names df0) -> get_column n df = get_column n df0).

(** Pairwise distinct labels. *)
Fixpoint distinct (l : list string) : bool :=
  match l with
  | [] => true
  | x :: l' => negb (existsb (String.eqb x) l') && distinct l'
  end.

(* ===================================================================== *)
(** * Run metrics ([PipelineMetrics]) *)
(* ===================================================================== *)

Module Metrics.

(** One entry of [self.runs]. *)
Record run : Type := mkRun {
  timestamp : string;
  duration : Q;
  success : bool;
  records : Z
}.

Record PipelineMetrics : Type := mkMetrics {
  runs : list run;
  total_records : Z
}.

(** [__init__] *)
Definition init : PipelineMetrics := mkMetrics [] 0.

Definition add_run (now : string) (d : Q) (ok : bool) (n : Z)
  (m : PipelineMetrics) : PipelineMetrics :=
  mkMetrics (runs m ++ [mkRun now d ok n])
            (if ok then (total_records m + n)%Z else total_records m).

Definition get_total_runs (m : PipelineMetrics) : nat := length (runs m).

Definition Qsum (l : list Q) : Q := fold_left Qplus l 0.

Definition get_success_rate (m : PipelineMetrics) : Q :=
  match runs m with
  | [] => 100
  | _ =>
      let successes := length (List.filter success (runs m)) in
      (inject_Z (Z.of_nat successes) / inject_Z (Z.of_nat (length (runs m))))
      * 100
  end.

Definition get_avg_duration (m : PipelineMetrics) : Q :=
  match runs m with
  | [] => 0
  | _ => Qsum (map duration (runs m)) / inject_Z (Z.of_nat (length (runs m)))
  end.

Definition get_total_records (m : PipelineMetrics) : Z := total_records m.

(** A sequence of [add_run] calls, oldest first. *)
Record call : Type := mkCall {
  c_now : string; c_duration : Q; c_success : bool; c_records : Z
}.

(** The run a call records. *)
Definition run_of_call (c : call) : run :=
  mkRun (c_now c) (c_duration c) (c_success c) (c_records c).

Definition apply_call (m : PipelineMetrics) (c : call) : PipelineMetrics :=
  add_run (c_now c) (c_duration c) (c_success c) (c_records c) m.

Definition replay (cs : list call) : PipelineMetrics :=
  fold_left apply_call cs init.

(** The record counts of the successful runs, added up. *)
Fixpoint successful_records (rs : list run) : Z :=
  match rs with
  | [] => 0
  | r :: rs' =>
      ((if success r then records r else 0) + successful_records rs')%Z
  end.

End Metrics.

(* ===================================================================== *)
(** * Quality checker ([DataQualityChecker]) *)
(* ===================================================================== *)

Module Quality.

(** The f-strings appended to [issues], by shape and argument. *)
Inductive issue : Type :=
| MissingValues (count : nat)      (* "Found {n} missing values" *)
| NegativeValues (col : string)    (* "Column '{col}' contains negative values" *)
| DuplicateRows (count : nat).     (* "Found {n} duplicate rows" *)

Record QualityReport : Type := mkReport {
  completeness : fval;
  validity : Q;
  uniqueness : fval;
  issues : list issue;
  overall_score : fval
}.

(** [df.isnull().sum().sum()] *)
Definition missing_cells (df : DataFrame) : nat :=
  list_sum (map (fun r => length (List.filter isnull r)) (rows df)).

(** [(df[col] < 0).any()]; a missing value is not below zero. *)
Definition any_negative (cs : list cell) : bool :=
  existsb (fun c => match c with
                    | Num q => negb (Qle_bool 0 q)
                    | _ => false
                    end) cs.

Definition column_values (name : string) (df : DataFrame) : list cell :=
  match get_column name df with Some cs => cs | None => [] end.

(** The loop over the numeric columns: the running [validity] and the
    issues it appends. *)
Fixpoint validity_loop (df : DataFrame) (cols : list string)
  (validity : Q) (issues : list issue) : Q * list issue :=
  match cols with
  | [] => (validity, issues)
  | col :: cols' =>
      if any_negative (column_values col df)
      then validity_loop df cols' (validity - 5)
             (issues ++ [NegativeValues col])
      else validity_loop df cols' validity issues
  end.

(** [df.duplicated().sum()] *)
Definition duplicate_rows (df : DataFrame) : nat :=
  length (List.filter (fun b : bool => b) (duplicated df)).

Definition of_nat (n : nat) : fval := Float.of_Z (Z.of_nat n).

(** Python's [max(validity, 0)]. *)
Definition max0 (v : Q) : Q := if Qle_bool 0 v then v else 0.

Definition check_quality (df : DataFrame) : QualityReport :=
  let issues := [] in
  (* Completeness *)
  let total_cells := (shape0 df * shape1 df)%nat in
  let missing := missing_cells df in
  let completeness :=
    Float.mul (Float.div (of_nat (total_cells - missing)) (of_nat total_cells))
              (Fin 100) in
  let issues :=
    if (0 <? missing)%nat then issues ++ [MissingValues missing] else issues in
  (* Validity *)
  let '(validity, issues) :=
    validity_loop df (numeric_columns df) 100 issues in
  (* Uniqueness *)
  let dups := duplicate_rows df in
  let uniqueness :=
    Float.mul (Float.div (of_nat (shape0 df - dups)) (of_nat (shape0 df)))
              (Fin 100) in
  let issues :=
    if (0 <? dups)%nat then issues ++ [DuplicateRows dups] else issues in
  mkReport completeness (max0 validity) uniqueness issues
    (Float.div (Float.add (Float.add completeness (Fin validity)) uniqueness)
               (Fin 3)).

(** The arithmetic mean of three scores. *)
Definition mean3 (a b c : fval) : fval :=
  Float.div (Float.add (Float.add a b) c) (Fin 3).

(** A frame of one row and [n] numeric columns [c0 .. c(n-1)], every
    cell holding [-1]. *)
Definition label (i : nat) : string :=
  String (ascii_of_nat (97 + i)) EmptyString.

Definition negative_frame (n : nat) : DataFrame :=
  mkDataFrame (map (fun i => (label i, Number)) (seq 0 n))
              [repeat (Num (-1)) n].

End Quality.

(* ===================================================================== *)
(** * Cleaning stage ([GlueSimulator]) *)
(* ===================================================================== *)

Module Glue.

Fixpoint insert_sorted (x : Q) (l : list Q) : list Q :=
  match l with
  | [] => [x]
  | y :: l' => if Qle_bool x y then x :: l else y :: insert_sorted x l'
  end.

Definition sort (l : list Q) : list Q := fold_right insert_sorted [] l.

(** [Series.median()]: missing values are skipped; the median of no
    value at all is [NaN]. *)
Definition median (cs : list cell) : cell :=
  let s := sort (present cs) in
  let n := length s in
  match n with
  | O => NA
  | _ =>
      if Nat.even n
      then Num ((nth (n / 2 - 1) s 0 + nth (n / 2) s 0) / 2)
      else Num (nth (n / 2) s 0)
  end.

(** [df[col].fillna(v, inplace=True)] for the column at position [i];
    the in-place fill through [df[col]] is taken to reach the frame. *)
Definition fill_cell (i : nat) (v : cell) (r : row) : row :=
  match nth_error r i with
  | Some NA => set_nth i v r
  | _ => r
  end.

Definition retype (i : nat) (ty : dtype) (hdr : list (string * dtype))
  : list (string * dtype) :=
  match nth_error hdr i with
  | Some (n, _) => set_nth i (n, ty) hdr
  | None => hdr
  end.

Definition fillna_step (df : DataFrame) (col : string) : DataFrame :=
  match index_of col (columns df) with
  | None => df
  | Some i =>
      let vs := column_at i df in
      match nth_error (columns df) i with
      | Some (_, Number) =>
          mkDataFrame (columns df) (map (fill_cell i (median vs)) (rows df))
      | Some (_, Text) =>
          mkDataFrame (columns df)
                      (map (fill_cell i (Str "Unknown")) (rows df))
      | Some (_, Timestamp) =>
          (* a timestamp column that receives the text becomes [object] *)
          mkDataFrame
            (if existsb isnull vs then retype i Text (columns df)
             else columns df)
            (map (fill_cell i (Str "Unknown")) (rows df))
      | None => df
      end
  end.

Section WithEnvironment.

(** [now]: [datetime.now().isoformat()]; [noise i]: the [i]-th draw of
    [np.random.uniform(0.9, 1.0, n)]. *)
Variable now : string.
Variable noise : nat -> Q.

Definition process_data (df : DataFrame) : DataFrame :=
  let processed_df := df in
  (* Remove duplicates *)
  let processed_df := drop_duplicates processed_df in
  (* Handle missing values *)
  let processed_df :=
    fold_left fillna_step (names processed_df) processed_df in
  (* Add metadata *)
  let processed_df :=
    set_column "processed_timestamp" Text
      (repeat (Str now) (len processed_df)) processed_df in
  set_column "data_quality" Number
    (map (fun i => Num (noise i)) (seq 0 (len processed_df))) processed_df.

End WithEnvironment.

End Glue.

(* ===================================================================== *)
(** * Enrichment stage ([LambdaSimulator]) *)
(* ===================================================================== *)

Module Lambda.

Definition Qsum (l : list Q) : Q := fold_left Qplus l 0.

Definition Qlt_bool (a b : Q) : bool := negb (Qle_bool b a).

(** [Series.min()] and [Series.max()] skip missing values and are
    [NaN] (here [None]) when nothing is left. *)
Definition col_min (cs : list cell) : option Q :=
  match present cs with
  | [] => None
  | x :: l => Some (fold_left Qmin l x)
  end.

Definition col_max (cs : list cell) : option Q :=
  match present cs with
  | [] => None
  | x :: l => Some (fold_left Qmax l x)
  end.

(** [(value - col_min) / (col_max - col_min)] on one cell. *)
Definition normalize_cell (lo hi : Q) (c : cell) : cell :=
  match as_num c with
  | Some v => Num ((v - lo) / (hi - lo))
  | None => NA
  end.

Definition normalized_name (col : string) : string := col ++ "_normalized".

Definition column_values (name : string) (df : DataFrame) : list cell :=
  match get_column name df with Some cs => cs | None => [] end.

(** One turn of the loop over [numeric_cols[:min(3, len(numeric_cols))]];
    a comparison with [NaN] is false. *)
Definition normalize_step (df : DataFrame) (col : string) : DataFrame :=
  let vs := column_values col df in
  match col_min vs, col_max vs with
  | Some col_min, Some col_max =>
      if Qlt_bool col_min col_max
      then set_column (normalized_name col) Number
             (map (normalize_cell col_min col_max) vs) df
      else df
  | _, _ => df
  end.

(** [col_max > col_min] for a column of the frame. *)
Definition spread (df : DataFrame) (col : string) : bool :=
  match col_min (column_values col df), col_max (column_values col df) with
  | Some lo, Some hi => Qlt_bool lo hi
  | _, _ => false
  end.

(** What the loop assigns to [<col>_normalized]. *)
Definition normalized_values (df : DataFrame) (col : string) : list cell :=
  let vs := column_values col df in
  match col_min vs, col_max vs with
  | Some lo, Some hi => map (normalize_cell lo hi) vs
  | _, _ => []
  end.

(** The labels [transform_data] may assign to. *)
Definition assigned (df : DataFrame) : list string :=
  ["numeric_sum"; "numeric_mean"; "numeric_std"]
  ++ map normalized_name (numeric_columns df)
  ++ ["transform_timestamp"; "record_hash"].




(** [df[numeric_cols]] row by row. *)
Definition positions (cols : list string) (df : DataFrame) : list nat :=
  omap (fun c => index_of c (columns df)) cols.

Definition select (idx : list nat) (r : row) : list cell :=
  map (fun i => nth i r NA) idx.

(** [sum(axis=1)], [mean(axis=1)], [std(axis=1)] on the numbers of one
    row; [std] is the sample deviation ([ddof=1]). *)
Definition row_sum (cs : list cell) : cell := Num (Qsum (present cs)).

Definition row_mean (cs : list cell) : cell :=
  match present cs with
  | [] => NA
  | l => Num (Qsum l / inject_Z (Z.of_nat (length l)))
  end.

(** The cells of a row that sit in the numeric columns of the frame. *)
Definition numeric_cells (df : DataFrame) (r : row) : list cell :=
  select (positions (numeric_columns df) df) r.

Section WithEnvironment.

(** [sqrt]: the square root of [float64]; [hash]: [hash(str(row))];
    [now]: [datetime.now().isoformat()]. *)
Variable sqrt : Q -> Q.
Variable hash : row -> Z.
Variable now : string.

Definition row_std (cs : list cell) : cell :=
  let l := present cs in
  let n := length l in
  if (n <? 2)%nat then NA
  else
    let m := Qsum l / inject_Z (Z.of_nat n) in
    Num (sqrt (Qsum (map (fun x => (x - m) * (x - m)) l)
               / inject_Z (Z.of_nat (n - 1)))).

Definition aggregate (f : list cell -> cell) (cols : list string)
  (df : DataFrame) : list cell :=
  map (fun r => f (select (positions cols df) r)) (rows df).

Definition transform_data (df : DataFrame) : DataFrame :=
  let transformed_df := df in
  (* Add calculated fields *)
  let numeric_cols := numeric_columns transformed_df in
  let transformed_df :=
    if (0 <? length numeric_cols)%nat then
      (* Calculate aggregations *)
      let transformed_df :=
        set_column "numeric_sum" Number
          (aggregate row_sum numeric_cols transformed_df) transformed_df in
      let transformed_df :=
        set_column "numeric_mean" Number
          (aggregate row_mean numeric_cols transformed_df) transformed_df in
      let transformed_df :=
        set_column "numeric_std" Number
          (aggregate row_std numeric_cols transformed_df) transformed_df in
      (* Add normalized columns *)
      fold_left normalize_step
        (firstn (Nat.min 3 (length numeric_cols)) numeric_cols)
        transformed_df
    else transformed_df in
  (* Add transformation metadata *)
  let transformed_df :=
    set_column "transform_timestamp" Text
      (repeat (Str now) (len transformed_df)) transformed_df in
  set_column "record_hash" Number
    (map (fun r => Num (inject_Z (hash r))) (rows transformed_df))
    transformed_df.

End WithEnvironment.

End Lambda.

(* ===================================================================== *)
(** * Python text operations used by the query parser *)
(* ===================================================================== *)

Module Py.

(** Query texts are ASCII; a text is the list of its characters. *)
Definition text : Type := list ascii.

Definition code (c : ascii) : nat := nat_of_ascii c.

(** [str.upper()] *)
Definition upper_char (c : ascii) : ascii :=
  if ((97 <=? code c) && (code c <=? 122))%nat
  then ascii_of_nat (code c - 32) else c.

Definition upper (s : text) : text := map upper_char s.

(** [str.isspace()] on one ASCII character. *)
Definition is_space (c : ascii) : bool :=
  (((9 <=? code c) && (code c <=? 13))
   || ((28 <=? code c) && (code c <=? 32)))%nat.

Fixpoint is_prefix (p s : text) : bool :=
  match p, s with
  | [], _ => true
  | a :: p', b :: s' => Ascii.eqb a b && is_prefix p' s'
  | _ :: _, [] => false
  end.

(** [sep in s] *)
Fixpoint contains (sep s : text) : bool :=
  match s with
  | [] => is_prefix sep []
  | _ :: s' => is_prefix sep s || contains sep s'
  end.

(** [s.split(sep)] for a non-empty separator, scanning left to right;
    [skip] counts the characters of a matched separator still to pass.
    The head of the result is the piece under construction. *)
Fixpoint split_from (sep : text) (skip : nat) (s : text) : list text :=
  match s with
  | [] => [[]]
  | c :: s' =>
      match skip with
      | S k => split_from sep k s'
      | O =>
          if is_prefix sep s
          then [] :: split_from sep (length sep - 1) s'
          else match split_from sep 0 s' with
               | p :: ps => (c :: p) :: ps
               | [] => [[c]]
               end
      end
  end.

Definition split (sep s : text) : list text := split_from sep 0 s.

Fixpoint lstrip (s : text) : text :=
  match s with
  | c :: s' => if is_space c then lstrip s' else s
  | [] => []
  end.

(** [str.strip()] *)
Definition strip (s : text) : text := rev (lstrip (rev (lstrip s))).

(** [str.split()] without argument: the maximal runs of non-blank
    characters.  [scan s] is the run that starts at the head of [s]
    (empty when [s] starts with a blank) and the runs after it. *)
Fixpoint scan (s : text) : text * list text :=
  match s with
  | [] => ([], [])
  | c :: s' =>
      let '(w, ws) := scan s' in
      if is_space c
      then ([], match w with [] => ws | _ => w :: ws end)
      else (c :: w, ws)
  end.

Definition words (s : text) : list text :=
  let '(w, ws) := scan s in
  match w with [] => ws | _ => w :: ws end.

Definition digit_of (c : ascii) : option Z :=
  if ((48 <=? code c) && (code c <=? 57))%nat
  then Some (Z.of_nat (code c - 48)) else None.

(** The digits of an integer literal, single underscores allowed
    between two digits. *)
Fixpoint digits_from (acc : Z) (after_digit : bool) (s : text) : option Z :=
  match s with
  | [] => if after_digit then Some acc else None
  | c :: s' =>
      if Ascii.eqb c "_"
      then (if after_digit then digits_from acc false s' else None)
      else match digit_of c with
           | Some d => digits_from (10 * acc + d)%Z true s'
           | None => None
           end
  end.

(** [int(s)]; [None] stands for [ValueError]. *)
Definition int (s : text) : option Z :=
  match strip s with
  | c :: s' =>
      if Ascii.eqb c "-" then option_map Z.opp (digits_from 0 false s')
      else if Ascii.eqb c "+" then digits_from 0 false s'
      else digits_from 0 false (c :: s')
  | [] => None
  end.





(** [str.replace(old, new)] for single characters. *)
Definition replace_char (old new : ascii) (s : text) : text :=
  map (fun c => if Ascii.eqb c old then new else c) s.

End Py.

(* ===================================================================== *)
(** * Storage and serving stages ([S3Simulator], [AthenaSimulator]) *)
(* ===================================================================== *)

(** What a call does: it returns, or it raises. *)
Inductive exn : Type :=
| OSError (path : string).

Inductive outcome (A : Type) : Type :=
| Returned (a : A)
| Raised (e : exn).

Arguments Returned {A} a.
Arguments Raised {A} e.

Module S3.

Record S3Simulator : Type := mkS3 {
  storage : gmap string DataFrame;
  base_path : string
}.

(** [__init__] *)
Definition init : S3Simulator := mkS3 ∅ "data/raw".

Record receipt : Type := mkReceipt { key : string; size : nat }.

(** [self.base_path / key.replace('/', '_')] *)
Definition csv_path (s3 : S3Simulator) (key : string) : string :=
  base_path s3 ++ "/" ++
  string_of_list_ascii (Py.replace_char "/" "_" (list_ascii_of_string key)).

Section WithDisk.

(** [writable path df]: [df.to_csv(path)] succeeds; it raises
    [OSError] otherwise. *)
Variable writable : string -> DataFrame -> bool.

Definition upload_data (df : DataFrame) (key : string) (s3 : S3Simulator)
  : S3Simulator * outcome receipt :=
  let s3 := mkS3 (<[key := df]> (storage s3)) (base_path s3) in
  let path := csv_path s3 key in
  if writable path df
  then (s3, Returned (mkReceipt key (len df)))
  else (s3, Raised (OSError path)).

End WithDisk.

Definition download_data (key : string) (s3 : S3Simulator)
  : option DataFrame := storage s3 !! key.

End S3.

Module Athena.

(** One entry of [self.queries]. *)
Record entry : Type := mkEntry {
  query : string;
  timestamp : string;
  rows_returned : nat
}.

Record AthenaSimulator : Type := mkAthena {
  tables : gmap string DataFrame;
  queries : list entry
}.

(** [__init__] *)
Definition init : AthenaSimulator := mkAthena ∅ [].

Definition default_table : string := "pipeline_data".

Definition store_data (df : DataFrame) (table_name : string)
  (a : AthenaSimulator) : AthenaSimulator :=
  mkAthena (<[table_name := df]> (tables a)) (queries a).

Definition LIMIT : Py.text := list_ascii_of_string "LIMIT".

(** [int(query.upper().split('LIMIT')[1].strip().split()[0])]; [None]
    when one of the steps raises. *)
Definition parse_limit (q : Py.text) : option Z :=
  match nth_error (Py.split LIMIT (Py.upper q)) 1 with
  | Some piece =>
      match Py.words (Py.strip piece) with
      | tok :: _ => Py.int tok
      | [] => None
      end
  | None => None
  end.

Definition execute_query (now : string) (q : string) (table_name : string)
  (a : AthenaSimulator) : AthenaSimulator * DataFrame :=
  match tables a !! table_name with
  | None => (a, empty_frame)
  | Some df =>
      let text := list_ascii_of_string q in
      (* Simple query parsing *)
      let df :=
        if Py.contains LIMIT (Py.upper text) then
          match parse_limit text with
          | Some limit => head limit df
          | None => df
          end
        else df in
      (mkAthena (tables a) (queries a ++ [mkEntry q now (len df)]), df)
  end.

End Athena.

(* ===================================================================== *)
(** * Orchestrator ([PipelineOrchestrator]) *)
(* ===================================================================== *)

Module Orchestrator.

(** The dictionary each stage returns and appends to the log. *)
Record StageResult : Type := mkResult {
  stage : string;
  data : DataFrame;
  s3_key : option string;
  timestamp : string;
  records : nat;
  quality_score : option Q
}.

(** The services of [AWSSimulator] that carry state read by the
    pipeline. *)
Record AWSSimulator : Type := mkAWS {
  s3 : S3.S3Simulator;
  athena : Athena.AthenaSimulator
}.

Record PipelineOrchestrator : Type := mkOrchestrator {
  aws : AWSSimulator;
  execution_log : list StageResult
}.

Definition init : PipelineOrchestrator :=
  mkOrchestrator (mkAWS S3.init Athena.init) [].

(** What a stage call reads from the outside world. *)
Record env : Type := mkEnv {
  writable : string -> DataFrame -> bool; (* does [to_csv] succeed *)
  stamp : string;       (* [datetime.now().strftime('%Y%m%d_%H%M%S')] *)
  now : string;         (* [datetime.now()] *)
  noise : nat -> Q;     (* [np.random.uniform] *)
  sqrt : Q -> Q;
  hash : row -> Z
}.

(** [f"raw/data_{datetime.now().strftime('%Y%m%d_%H%M%S')}.csv"] *)
Definition ingest_key (E : env) : string :=
  ("raw/data_" ++ stamp E ++ ".csv")%string.

Definition ingest_data (E : env) (df : DataFrame) (o : PipelineOrchestrator)
  : PipelineOrchestrator * outcome StageResult :=
  (* Upload to S3 *)
  let s3_key := ingest_key E in
  let '(s3', uploaded) := S3.upload_data (writable E) df s3_key (s3 (aws o)) in
  let o := mkOrchestrator (mkAWS s3' (athena (aws o))) (execution_log o) in
  match uploaded with
  | Raised e => (o, Raised e)
  | Returned _ =>
      let result :=
        mkResult "ingestion" df (Some s3_key) (now E) (len df) None in
      (mkOrchestrator (aws o) (execution_log o ++ [result]), Returned result)
  end.

Definition process_data (E : env) (df : DataFrame) (o : PipelineOrchestrator)
  : PipelineOrchestrator * StageResult :=
  (* Glue ETL processing *)
  let processed_df := Glue.process_data (now E) (noise E) df in
  let result :=
    mkResult "processing" processed_df None (now E) (len processed_df)
             (Some 98.5) in
  (mkOrchestrator (aws o) (execution_log o ++ [result]), result).

Definition transform_data (E : env) (df : DataFrame)
  (o : PipelineOrchestrator) : PipelineOrchestrator * StageResult :=
  (* Lambda transformation *)
  let transformed_df := Lambda.transform_data (sqrt E) (hash E) (now E) df in
  let result :=
    mkResult "transformation" transformed_df None (now E)
             (len transformed_df) None in
  (mkOrchestrator (aws o) (execution_log o ++ [result]), result).

Definition setup_query (E : env) (df : DataFrame) (o : PipelineOrchestrator)
  : PipelineOrchestrator * StageResult :=
  (* Athena setup *)
  let athena' := Athena.store_data df Athena.default_table (athena (aws o)) in
  let result := mkResult "query" df None (now E) (len df) None in
  (mkOrchestrator (mkAWS (s3 (aws o)) athena') (execution_log o ++ [result]),
   result).

Definition get_execution_log (o : PipelineOrchestrator) : list StageResult :=
  execution_log o.

End Orchestrator.

(* ===================================================================== *)
(** * Sample data *)
(* ===================================================================== *)

Module Samples.

(** [{id: [1, 1, 2], value: [5, 5, 10]}] *)
Definition ids : DataFrame :=
  mkDataFrame [("id", Number); ("value", Number)]
              [[Num 1; Num 5]; [Num 1; Num 5]; [Num 2; Num 10]].

(** A frame with columns and no row. *)
Definition no_rows : DataFrame :=
  mkDataFrame [("id", Number); ("value", Number)] [].

(** Ten rows, a number and a text each. *)
Definition ten_rows : DataFrame :=
  mkDataFrame [("n", Number); ("tag", Text)]
    (map (fun i => [Num (inject_Z (Z.of_nat i)); Str "x"]) (seq 0 10)).


(** One numeric column, no gap. *)
Definition single : DataFrame :=
  mkDataFrame [("x", Number); ("who", Text)]
              [[Num 1; Str "a"]; [Num 3; Str "b"]].

(** A constant column next to a varying one. *)
Definition flat : DataFrame :=
  mkDataFrame [("k", Number); ("v", Number)]
              [[Num 7; Num 2]; [Num 7; Num 4]; [Num 7; Num 3]].

Definition quiet : Orchestrator.env :=
  Orchestrator.mkEnv (fun _ _ => true) "20240101_000000"
    "2024-01-01T00:00:00" (fun _ => 0.95) (fun q => q) (fun _ => 0%Z).

(** The same surroundings with a read-only disk. *)
Definition disk_full : Orchestrator.env :=
  Orchestrator.mkEnv (fun _ _ => false) "20240101_000000"
    "2024-01-01T00:00:00" (fun _ => 0.95) (fun q => q) (fun _ => 0%Z).

End Samples.

(* ===================================================================== *)
(** * Alert registry ([AlertManager]) *)
(* ===================================================================== *)

Module Alerts.

Inductive AlertSeverity : Type := INFO | WARNING | ERROR | CRITICAL.

(** [severity.value] *)
Definition value (s : AlertSeverity) : string :=
  match s with
  | INFO => "info"
  | WARNING => "warning"
  | ERROR => "error"
  | CRITICAL => "critical"
  end.

Record Alert : Type := mkAlert {
  severity : AlertSeverity;
  message : string;
  source : string;
  timestamp : string;
  acknowledged : bool
}.

(** [Alert.to_dict] *)
Definition to_dict (a : Alert) : string * string * string * string * bool :=
  (value (severity a), message a, source a, timestamp a, acknowledged a).

(** Alerts are objects: the manager's list and its callers hold
    references to them, and [acknowledge] changes the object for all.
    [objects] is the store of the alerts allocated so far, a reference is
    a position in it; [alerts] is [self.alerts]. *)
Record AlertManager : Type := mkManager {
  objects : list Alert;
  alerts : list nat
}.

(** [__init__] *)
Definition init : AlertManager := mkManager [] [].

(** [Alert(severity, message, source)] on its own. *)
Definition new_alert (now : string) (sev : AlertSeverity) (msg src : string)
  (m : AlertManager) : AlertManager * nat :=
  (mkManager (objects m ++ [mkAlert sev msg src now false]) (alerts m),
   length (objects m)).

Definition create_alert (now : string) (sev : AlertSeverity) (msg src : string)
  (m : AlertManager) : AlertManager * nat :=
  let '(m, alert) := new_alert now sev msg src m in
  (mkManager (objects m) (alerts m ++ [alert]), alert).

(** [alert.acknowledge()] *)
Definition acknowledge (a : Alert) : Alert :=
  mkAlert (severity a) (message a) (source a) (timestamp a) true.

Definition acknowledge_alert (alert : nat) (m : AlertManager) : AlertManager :=
  mkManager (alter acknowledge alert (objects m)) (alerts m).

(** [not a.acknowledged] through a reference. *)
Definition is_active (m : AlertManager) (alert : nat) : bool :=
  match objects m !! alert with
  | Some a => negb (acknowledged a)
  | None => false
  end.

Definition get_active_alerts (m : AlertManager) : list nat :=
  List.filter (is_active m) (alerts m).

Definition get_all_alerts (m : AlertManager) : list nat := alerts m.

Definition clear_acknowledged (m : AlertManager) : AlertManager :=
  mkManager (objects m) (List.filter (is_active m) (alerts m)).

(** Every reference of the list points to an allocated alert. *)
Definition valid (m : AlertManager) : bool :=
  forallb (fun r => (r <? length (objects m))%nat) (alerts m).

End Alerts.

(* ===================================================================== *)
(** * The pipeline run of the application ([app.py]) *)
(* ===================================================================== *)

Module App.

Import Orchestrator.

(** [st.session_state.pipeline_result] *)
Record pipeline_result : Type := mkPipelineResult {
  original : DataFrame;
  processed : DataFrame;
  transformed : DataFrame;
  duration : Q;
  result_timestamp : string
}.

(** One entry of [st.session_state.pipeline_history]. *)
Record history_entry : Type := mkHistory {
  h_timestamp : string;
  h_duration : Q;
  h_records : nat;
  h_status : string
}.

(** The part of [st.session_state] the run reads and writes. *)
Record session : Type := mkSession {
  orchestrator : PipelineOrchestrator;
  metrics : Metrics.PipelineMetrics;
  last_result : option pipeline_result;
  pipeline_history : list history_entry
}.

(** The surroundings of one run: those of the four stage calls, the
    measured [end_time - start_time], and the clock as read by [add_run],
    by the stored result, by the history entry and, in the [except]
    branch, by [add_run] again. *)
Record run_env : Type := mkRunEnv {
  at_ingest : env;
  at_process : env;
  at_transform : env;
  at_query : env;
  elapsed : Q;
  at_record : string;
  at_store : string;
  at_history : string;
  at_except : string
}.

(** The [except] branch: [metrics.add_run(0, False, 0)]. *)
Definition on_exception (R : run_env) (s : session) : session :=
  mkSession (orchestrator s)
            (Metrics.add_run (at_except R) 0 false 0 (metrics s))
            (last_result s) (pipeline_history s).

(** The [try] block of the "run pipeline" button and its [except]
    branch.  Progress bars and messages are left out, but not the
    throughput [len(data_to_process)/duration] of the execution summary,
    which raises [ZeroDivisionError] inside the [try] when the duration
    is zero. *)
Definition run_pipeline (R : run_env) (data_to_process : DataFrame)
  (s : session) : session :=
  match ingest_data (at_ingest R) data_to_process (orchestrator s) with
  | (o, Raised _) =>
      on_exception R
        (mkSession o (metrics s) (last_result s) (pipeline_history s))
  | (o, Returned ingestion_result) =>
      let '(o, processing_result) :=
        process_data (at_process R) (data ingestion_result) o in
      let '(o, transformation_result) :=
        transform_data (at_transform R) (data processing_result) o in
      let '(o, query_result) :=
        setup_query (at_query R) (data transformation_result) o in
      (* Update metrics *)
      let metrics :=
        Metrics.add_run (at_record R) (elapsed R) true
          (Z.of_nat (len data_to_process)) (metrics s) in
      (* Store results *)
      let result :=
        mkPipelineResult data_to_process (data processing_result)
          (data transformation_result) (elapsed R) (at_store R) in
      (* Add to history *)
      let s1 :=
        mkSession o metrics (Some result)
          (pipeline_history s
           ++ [mkHistory (at_history R) (elapsed R) (len data_to_process)
                 "Success"]) in
      (* Execution summary *)
      if Qeq_bool (elapsed R) 0 then on_exception R s1 else s1
  end.

End App.

(* ===================================================================== *)
(** * Notions used in the statements on the stages *)
(* ===================================================================== *)

Module Notions.

(** A numeric column with at least one negative value. *)
Definition offending (df : DataFrame) (col : string) : bool :=
  Quality.any_negative (Quality.column_values col df).

(** A frame with rows and columns, no missing cell, no negative number
    and no repeated row. *)
Definition clean (df : DataFrame) : bool :=
  negb (is_empty df)
  && Nat.eqb (Quality.missing_cells df) 0
  && forallb (fun c => negb (offending df c)) (numeric_columns df)
  && Nat.eqb (Quality.duplicate_rows df) 0.





End Notions.

Module Fixtures.

(** Two distinct complete rows. *)
Definition tidy : DataFrame :=
  mkDataFrame [("id", Number); ("name", Text)]
              [[Num 1; Str "a"]; [Num 2; Str "b"]].

(** Gaps in a numeric and in a text column, and a repeated row. *)
Definition patchy : DataFrame :=
  mkDataFrame [("id", Number); ("name", Text)]
              [[Num 1; Str "a"]; [Num 1; Str "a"]; [NA; Str "b"];
               [Num 5; NA]].

Definition two_alerts : Alerts.AlertManager :=
  fst (Alerts.create_alert "t1" Alerts.ERROR "disk" "S3"
         (fst (Alerts.create_alert "t0" Alerts.INFO "start" "Pipeline"
                 Alerts.init))).

Definition calm : App.run_env :=
  App.mkRunEnv Samples.quiet Samples.quiet Samples.quiet Samples.quiet
    2.5 "2024-01-01T00:00:03" "2024-01-01T00:00:03" "2024-01-01T00:00:03"
    "2024-01-01T00:00:03".

Definition stormy : App.run_env :=
  App.mkRunEnv Samples.disk_full Samples.quiet Samples.quiet Samples.quiet
    2.5 "2024-01-01T00:00:03" "2024-01-01T00:00:03" "2024-01-01T00:00:03"
    "2024-01-01T00:00:03".

Definition fresh_session : App.session :=
  App.mkSession Orchestrator.init Metrics.init None [].

End Fixtures.

(* ===================================================================== *)
(** * Verification: run metrics *)
(* ===================================================================== *)

Section MetricsFacts.

Import Metrics.

Lemma replay_snoc (cs : list call) (c : call) :
  replay (cs ++ [c]) = apply_call (replay cs) c.
Proof. unfold replay. now rewrite fold_left_app. Qed.

Lemma successful_records_snoc (rs : list run) (r : run) :
  successful_records (rs ++ [r])
  = (successful_records rs + (if success r then records r else 0))%Z.
Proof.
  induction rs as [|x rs IH]; simpl.
  - lia.
  - rewrite IH. lia.
Qed.

Lemma runs_replay (cs : list call) :
  runs (replay cs) = map run_of_call cs.
Proof.
  induction cs as [|c cs IH] using rev_ind.
  - reflexivity.
  - rewrite replay_snoc, map_app. simpl. now rewrite IH.
Qed.

Lemma total_records_replay (cs : list call) :
  total_records (replay cs) = successful_records (runs (replay cs)).
Proof.
  induction cs as [|c cs IH] using rev_ind.
  - reflexivity.
  - rewrite replay_snoc. unfold apply_call, add_run. simpl.
    rewrite successful_records_snoc, IH. simpl.
    destruct (c_success c); lia.
Qed.

(** C8. A tracker without recorded runs reports a success rate of 100
    and an average duration of 0; after any sequence of [add_run] calls
    the run list holds exactly those runs, and the total of records is
    the sum of the record counts of the successful runs alone. *)
Theorem metrics_empty_and_total :
  (forall t : Z,
      get_success_rate (mkMetrics [] t) = 100
      /\ get_avg_duration (mkMetrics [] t) = 0)
  /\ get_success_rate init = 100
  /\ get_avg_duration init = 0
  /\ (forall cs : list call,
        runs (replay cs) = map run_of_call cs
        /\ get_total_records (replay cs)
           = successful_records (map run_of_call cs)).
Proof.
  repeat split.
  - apply runs_replay.
  - unfold get_total_records.
    now rewrite total_records_replay, runs_replay.
Qed.

End MetricsFacts.

(* ===================================================================== *)
(** * Verification: quality checker *)
(* ===================================================================== *)

Section QualityFacts.

Import Quality.

Lemma column_values_no_rows (hdr : list (string * dtype)) (c : string) :
  column_values c (mkDataFrame hdr []) = [].
Proof.
  unfold column_values, get_column. simpl.
  now destruct (index_of c hdr).
Qed.

Lemma validity_loop_no_rows (hdr : list (string * dtype)) (cols : list string)
  (v : Q) (iss : list issue) :
  validity_loop (mkDataFrame hdr []) cols v iss = (v, iss).
Proof.
  revert v iss. induction cols as [|c cols IH]; intros v iss; simpl.
  - reflexivity.
  - rewrite column_values_no_rows. simpl. apply IH.
Qed.

(** The score is always the mean taken with the running [validity],
    before the floor at zero is applied to the reported field. *)
Lemma overall_score_unfloored (df : DataFrame) :
  let r := check_quality df in
  let v := fst (validity_loop df (numeric_columns df) 100
                  (if (0 <? missing_cells df)%nat
                   then [MissingValues (missing_cells df)] else [])) in
  overall_score r = mean3 (completeness r) (Fin v) (uniqueness r)
  /\ validity r = max0 v.
Proof.
  unfold check_quality. simpl.
  destruct (validity_loop df (numeric_columns df) 100 _) as [v iss].
  simpl. split; reflexivity.
Qed.

(** C1. On a frame without rows [check_quality] returns (numpy divides
    [0] by [0] without raising), but completeness, uniqueness and the
    overall score are [NaN]; only validity is a number. *)
Theorem check_quality_no_rows_nan (hdr : list (string * dtype)) :
  let r := check_quality (mkDataFrame hdr []) in
  completeness r = NaN
  /\ uniqueness r = NaN
  /\ overall_score r = NaN
  /\ validity r = 100
  /\ issues r = [].
Proof.
  unfold check_quality. cbn [shape0 shape1 rows columns length Nat.mul].
  rewrite validity_loop_no_rows.
  unfold missing_cells, duplicate_rows, duplicated, is_empty. simpl.
  repeat split.
Qed.

(** C4. With 21 numeric columns holding a negative value the reported
    validity is 0, yet the overall score is 65: the mean of 100, -5 and
    100, not the mean of the three reported fields. *)
Theorem overall_score_ignores_floor :
  let r := check_quality (negative_frame 21) in
  Float.same (completeness r) (Fin 100)
  /\ validity r == 0
  /\ Float.same (uniqueness r) (Fin 100)
  /\ Float.same (overall_score r) (Fin 65)
  /\ ~ Float.same (overall_score r)
         (mean3 (completeness r) (Fin (validity r)) (uniqueness r)).
Proof.
  vm_compute. repeat split; intros H; discriminate H.
Qed.

End QualityFacts.

(* ===================================================================== *)
(** * Verification: storage and serving *)
(* ===================================================================== *)

Section AthenaFacts.

Import Athena.

Lemma execute_query_known (now q tn : string) (a : AthenaSimulator)
  (df : DataFrame) :
  tables a !! tn = Some df ->
  exists out : DataFrame,
    execute_query now q tn a
    = (mkAthena (tables a) (queries a ++ [mkEntry q now (len out)]), out).
Proof.
  intros H. unfold execute_query. rewrite H. eexists. reflexivity.
Qed.

(** C3. A query against a table name that was never registered leaves
    the query log as it was: the early return comes before the append.
    (For a registered table one entry is appended.) *)
Theorem execute_query_unknown_table_not_logged
  (now q tn : string) (a : AthenaSimulator) :
  tables a !! tn = None ->
  execute_query now q tn a = (a, empty_frame)
  /\ length (queries (fst (execute_query now q tn a))) = length (queries a).
Proof.
  intros H. unfold execute_query. rewrite H. split; reflexivity.
Qed.

Lemma execute_query_unknown_table_not_logged_witness :
  (init : AthenaSimulator).(tables) !! "orders" = None
  /\ execute_query "t0" "SELECT * FROM orders" "orders" init
     = (init, empty_frame)
  /\ length (queries (fst (execute_query "t0" "SELECT * FROM orders"
                             "orders" init)))
     = length (queries init).
Proof.
  split; [reflexivity |].
  apply (execute_query_unknown_table_not_logged "t0" "SELECT * FROM orders"
           "orders" init).
  reflexivity.
Defined.

(** C10. [execute_query] never touches the table registry: whatever the
    query text and the table name, every table holds the frame it held
    before the call, and the log is the old one or the old one
    with one more entry. *)
Theorem execute_query_tables_unchanged
  (now q tn : string) (a : AthenaSimulator) :
  let a' := fst (execute_query now q tn a) in
  tables a' = tables a
  /\ (forall name : string, tables a' !! name = tables a !! name)
  /\ (queries a' = queries a
      \/ exists e : entry, queries a' = queries a ++ [e]).
Proof.
  unfold execute_query.
  destruct (tables a !! tn) as [df|]; simpl.
  - repeat split. right. eexists. reflexivity.
  - repeat split. now left.
Qed.

End AthenaFacts.

Section IngestFacts.

Import Orchestrator.

(** C2. Ingestion binds the frame to its key in the store, then writes
    the CSV copy.  When the write succeeds the stage result is returned
    and logged; when it raises, the error reaches the caller: no result
    is returned and nothing is logged, although the store keeps the
    binding.  Nothing else can fail. *)
Theorem ingest_data_outcome (E : env) (df : DataFrame)
  (o : PipelineOrchestrator) :
  let key := ingest_key E in
  let path := S3.csv_path (s3 (aws o)) key in
  let '(o', res) := ingest_data E df o in
  S3.storage (s3 (aws o')) = <[key := df]> (S3.storage (s3 (aws o)))
  /\ athena (aws o') = athena (aws o)
  /\ (if writable E path df
      then exists r : StageResult,
             res = Returned r
             /\ stage r = "ingestion" /\ data r = df
             /\ s3_key r = Some key /\ records r = len df
             /\ execution_log o' = execution_log o ++ [r]
      else res = Raised (OSError path)
           /\ execution_log o' = execution_log o).
Proof.
  unfold ingest_data, S3.upload_data, ingest_key, S3.csv_path. simpl.
  destruct (writable E _ df); simpl.
  - repeat split. eexists. repeat split.
  - repeat split.
Qed.

(** C2, as stated, fails: with a disk that refuses the write the call
    raises instead of returning a stage result. *)
Lemma ingest_data_propagates_write_error :
  ~ (exists (o' : PipelineOrchestrator) (r : StageResult),
        ingest_data Samples.disk_full Samples.ids init = (o', Returned r)).
Proof.
  intros (o' & r & H). vm_compute in H. discriminate H.
Qed.

End IngestFacts.

(* ===================================================================== *)
(** * Verification: shapes through the stages *)
(* ===================================================================== *)

Section ShapeFacts.

Lemma length_set_nth {A} (i : nat) (x : A) (l : list A) :
  length (set_nth i x l) = length l.
Proof.
  revert i. induction l as [|y l IH]; intros [|i]; simpl; auto.
Qed.

Lemma length_zip_rows (f : row -> cell -> row) (rs : list row)
  (vs : list cell) :
  length (zip_rows f rs vs) = length rs.
Proof.
  revert vs. induction rs as [|r rs IH]; intros [|v vs]; simpl; auto.
Qed.

Lemma len_set_column (n : string) (ty : dtype) (vs : list cell)
  (df : DataFrame) :
  len (set_column n ty vs df) = len df.
Proof.
  unfold set_column, len.
  destruct (index_of n (columns df)); simpl; apply length_zip_rows.
Qed.

Lemma shape1_set_column (n : string) (ty : dtype) (vs : list cell)
  (df : DataFrame) :
  (shape1 df <= shape1 (set_column n ty vs df))%nat.
Proof.
  unfold set_column, shape1.
  destruct (index_of n (columns df)); simpl.
  - rewrite length_set_nth. lia.
  - rewrite length_app. simpl. lia.
Qed.

Lemma length_keep_unflagged (rs : list row) (flags : list bool) :
  (length (keep_unflagged rs flags) <= length rs)%nat.
Proof.
  revert flags. induction rs as [|r rs IH]; intros [|b flags]; simpl;
    try lia.
  specialize (IH flags). destruct b; simpl; lia.
Qed.

Lemma len_drop_duplicates (df : DataFrame) :
  (len (drop_duplicates df) <= len df)%nat.
Proof.
  unfold drop_duplicates, len.
  destruct (is_empty df); simpl; [lia | apply length_keep_unflagged].
Qed.

Lemma shape1_drop_duplicates (df : DataFrame) :
  shape1 (drop_duplicates df) = shape1 df.
Proof.
  unfold drop_duplicates. now destruct (is_empty df).
Qed.

Lemma length_retype (i : nat) (ty : dtype) (hdr : list (string * dtype)) :
  length (Glue.retype i ty hdr) = length hdr.
Proof.
  unfold Glue.retype. destruct (nth_error hdr i) as [[n t]|]; auto.
  apply length_set_nth.
Qed.

Lemma shape_fillna_step (df : DataFrame) (col : string) :
  len (Glue.fillna_step df col) = len df
  /\ shape1 (Glue.fillna_step df col) = shape1 df.
Proof.
  unfold Glue.fillna_step, len, shape1.
  destruct (index_of col (columns df)) as [i|]; [|auto].
  destruct (nth_error (columns df) i) as [[n [| |]]|]; simpl;
    rewrite ?length_map; auto.
  destruct (existsb _ _); auto using length_retype.
Qed.

Lemma shape_fillna_loop (cols : list string) (df : DataFrame) :
  len (fold_left Glue.fillna_step cols df) = len df
  /\ shape1 (fold_left Glue.fillna_step cols df) = shape1 df.
Proof.
  revert df. induction cols as [|c cols IH]; intros df; simpl; [auto|].
  destruct (IH (Glue.fillna_step df c)) as [-> ->].
  apply shape_fillna_step.
Qed.

Lemma shape_normalize_step (df : DataFrame) (col : string) :
  len (Lambda.normalize_step df col) = len df
  /\ (shape1 df <= shape1 (Lambda.normalize_step df col))%nat.
Proof.
  unfold Lambda.normalize_step.
  destruct (Lambda.col_min _) as [lo|]; [|auto].
  destruct (Lambda.col_max _) as [hi|]; [|auto].
  destruct (Lambda.Qlt_bool lo hi); [|auto].
  split; [apply len_set_column | apply shape1_set_column].
Qed.

Lemma shape_normalize_loop (cols : list string) (df : DataFrame) :
  len (fold_left Lambda.normalize_step cols df) = len df
  /\ (shape1 df <= shape1 (fold_left Lambda.normalize_step cols df))%nat.
Proof.
  revert df. induction cols as [|c cols IH]; intros df; simpl; [auto|].
  destruct (IH (Lambda.normalize_step df c)) as [-> H].
  destruct (shape_normalize_step df c) as [-> H']. split; [auto | lia].
Qed.

Lemma shape_process_data (now : string) (noise : nat -> Q) (df : DataFrame) :
  (len (Glue.process_data now noise df) <= len df)%nat
  /\ (shape1 df <= shape1 (Glue.process_data now noise df))%nat.
Proof.
  unfold Glue.process_data.
  set (d1 := fold_left _ _ _).
  destruct (shape_fillna_loop (names (drop_duplicates df))
              (drop_duplicates df)) as [Hl Hs].
  fold d1 in Hl, Hs. split.
  - rewrite !len_set_column, Hl. apply len_drop_duplicates.
  - rewrite <- (shape1_drop_duplicates df), <- Hs.
    etransitivity; [|apply shape1_set_column]. apply shape1_set_column.
Qed.

Lemma shape_transform_data (sqrt : Q -> Q) (hash : row -> Z) (now : string)
  (df : DataFrame) :
  len (Lambda.transform_data sqrt hash now df) = len df
  /\ (shape1 df <= shape1 (Lambda.transform_data sqrt hash now df))%nat.
Proof.
  unfold Lambda.transform_data.
  set (d := if (0 <? _)%nat then _ else _).
  assert (Hd : len d = len df /\ (shape1 df <= shape1 d)%nat).
  { subst d. destruct (0 <? _)%nat; [|auto].
    match goal with
    | |- context [fold_left _ ?cs ?x] =>
        destruct (shape_normalize_loop cs x) as [-> H]
    end.
    rewrite !len_set_column. split; [reflexivity|].
    etransitivity; [|exact H].
    etransitivity; [|apply shape1_set_column].
    etransitivity; [|apply shape1_set_column]. apply shape1_set_column. }
  destruct Hd as [Hl Hs]. split.
  - now rewrite !len_set_column.
  - etransitivity; [exact Hs|].
    etransitivity; [|apply shape1_set_column]. apply shape1_set_column.
Qed.

Import Orchestrator.

(** C5. Row and column counts along the pipeline, for every frame and
    whatever the surroundings: cleaning never adds rows; enrichment and
    serving keep the row count (serving registers and returns the very
    frame it got); ingestion hands the frame on unchanged; and the
    column count never drops from the ingested frame through cleaning
    to enrichment. *)
Theorem stage_counts (E : env) (D : DataFrame) (o : PipelineOrchestrator) :
  let ingested := snd (ingest_data E D o) in
  let processed := data (snd (process_data E D o)) in
  let transformed := data (snd (transform_data E processed o)) in
  let served := snd (setup_query E transformed o) in
  (* rows *)
  (len processed <= len D)%nat
  /\ (forall df, len (data (snd (transform_data E df o))) = len df)
  /\ (forall df, data (snd (setup_query E df o)) = df
                 /\ Athena.tables (athena (aws (fst (setup_query E df o))))
                      !! Athena.default_table = Some df)
  /\ len (data served) = len transformed
  /\ len transformed = len processed
  (* columns *)
  /\ match ingested with Returned r => data r = D | Raised _ => True end
  /\ (shape1 D <= shape1 processed)%nat
  /\ (forall df, (shape1 df <= shape1 (data (snd (transform_data E df o))))%nat)
  /\ (shape1 processed <= shape1 transformed)%nat.
Proof.
  cbn zeta. unfold process_data, transform_data, setup_query. simpl.
  destruct (shape_process_data (now E) (noise E) D) as [Hr Hc].
  repeat split.
  - exact Hr.
  - intros df. apply shape_transform_data.
  - apply lookup_insert_eq.
  - apply shape_transform_data.
  - unfold ingest_data, S3.upload_data. simpl.
    destruct (writable E _ D); simpl; reflexivity.
  - exact Hc.
  - intros df. apply shape_transform_data.
  - apply shape_transform_data.
Qed.

End ShapeFacts.

(* ===================================================================== *)
(** * Verification: the query parser *)
(* ===================================================================== *)

Section TextFacts.

Import Py.











(** ** [split] around the first [LIMIT] *)







(** ** Words *)










(** ** Integer literals *)







End TextFacts.

Section QueryFacts.

Import Py Athena.









End QueryFacts.

(* ===================================================================== *)
(** * Verification: frames under fresh column assignments *)
(* ===================================================================== *)

Section FrameFacts.

Lemma distinct_NoDup (l : list string) : distinct l = true -> List.NoDup l.
Proof.
  induction l as [|x l IH]; simpl; intros H; constructor.
  - apply andb_prop in H as [H _]. apply negb_true_iff in H.
    intros Hin. assert (E : existsb (String.eqb x) l = true).
    { apply existsb_exists. exists x. split; [exact Hin|].
      apply String.eqb_refl. }
    congruence.
  - apply andb_prop in H as [_ H]. auto.
Qed.

Lemma rectangular_spec (df : DataFrame) :
  rectangular df = true ->
  forall r, In r (rows df) -> length r = shape1 df.
Proof.
  unfold rectangular. rewrite forallb_forall. intros H r Hr.
  apply Nat.eqb_eq. auto.
Qed.

Lemma index_of_none (n : string) (hdr : list (string * dtype)) :
  index_of n hdr = None <-> ~ In n (map fst hdr).
Proof.
  induction hdr as [|[m t] hdr IH]; simpl.
  - tauto.
  - destruct (String.eqb m n) eqn:E.
    + apply String.eqb_eq in E. split; [discriminate | tauto].
    + apply String.eqb_neq in E.
      destruct (index_of n hdr) as [j|]; simpl.
      * split; [discriminate|]. intros H. exfalso.
        assert (G : Some j = None) by (apply IH; tauto). discriminate G.
      * split; [|reflexivity]. intros _ [H|H]; [congruence|].
        destruct IH as [IH _]. now apply IH.
Qed.

Lemma index_of_lt (n : string) (hdr : list (string * dtype)) (i : nat) :
  index_of n hdr = Some i -> (i < length hdr)%nat.
Proof.
  revert i. induction hdr as [|[m t] hdr IH]; simpl; intros i H.
  - discriminate.
  - destruct (String.eqb m n).
    + inversion H. lia.
    + destruct (index_of n hdr) as [j|]; simpl in H; [|discriminate].
      inversion H. specialize (IH j eq_refl). lia.
Qed.

Lemma index_of_app_old (n : string) (hdr ext : list (string * dtype)) (i : nat) :
  index_of n hdr = Some i -> index_of n (hdr ++ ext) = Some i.
Proof.
  revert i. induction hdr as [|[m t] hdr IH]; simpl; intros i H.
  - discriminate.
  - destruct (String.eqb m n); [exact H|].
    destruct (index_of n hdr) as [j|]; simpl in H; [|discriminate].
    now rewrite (IH j eq_refl).
Qed.

Lemma index_of_app_new (n : string) (ty : dtype) (hdr : list (string * dtype)) :
  index_of n hdr = None ->
  index_of n (hdr ++ [(n, ty)]) = Some (length hdr).
Proof.
  induction hdr as [|[m t] hdr IH]; simpl; intros H.
  - now rewrite String.eqb_refl.
  - destruct (String.eqb m n); [discriminate|].
    destruct (index_of n hdr); [discriminate|].
    now rewrite IH.
Qed.

Lemma index_of_app_other (n m : string) (ty : dtype)
  (hdr : list (string * dtype)) :
  n <> m -> index_of n hdr = None -> index_of n (hdr ++ [(m, ty)]) = None.
Proof.
  intros Hne H. apply index_of_none. rewrite map_app, in_app_iff. simpl.
  apply index_of_none in H. intros [H'|[H'|[]]]; [tauto | congruence].
Qed.

(** Rows after a column was appended. *)
Lemma in_zip_append (rs : list row) (vs : list cell) (r' : row) :
  In r' (zip_rows (fun r v => r ++ [v]) rs vs) ->
  exists r v, In r rs /\ r' = r ++ [v].
Proof.
  revert vs. induction rs as [|r rs IH]; intros vs; simpl; [tauto|].
  destruct vs as [|v vs]; simpl; intros [H|H]; eauto;
    destruct (IH _ H) as (r0 & v0 & Hr & E); eauto.
Qed.

Lemma column_old_after_append (i : nat) (rs : list row) (vs : list cell) :
  (forall r, In r rs -> (i < length r)%nat) ->
  map (fun r => nth i r NA) (zip_rows (fun r v => r ++ [v]) rs vs)
  = map (fun r => nth i r NA) rs.
Proof.
  revert vs. induction rs as [|r rs IH]; intros vs H; simpl; [reflexivity|].
  assert (Hr : (i < length r)%nat) by (apply H; now left).
  destruct vs as [|v vs]; simpl; rewrite app_nth1 by exact Hr;
    f_equal; apply IH; intros; apply H; now right.
Qed.

Lemma column_new_after_append (k : nat) (rs : list row) (vs : list cell) :
  (forall r, In r rs -> length r = k) ->
  length vs = length rs ->
  map (fun r => nth k r NA) (zip_rows (fun r v => r ++ [v]) rs vs) = vs.
Proof.
  revert vs. induction rs as [|r rs IH]; intros vs H Hl.
  - destruct vs; [reflexivity | discriminate].
  - destruct vs as [|v vs]; [discriminate|]. simpl.
    assert (Hr : length r = k) by (apply H; now left).
    rewrite app_nth2 by lia. replace (k - length r)%nat with O by lia.
    simpl. f_equal. apply IH; [intros; apply H; now right | simpl in Hl; lia].
Qed.

(** [df[n] = vs] for a label the frame does not have. *)
Lemma set_column_fresh (n : string) (ty : dtype) (vs : list cell)
  (df : DataFrame) :
  index_of n (columns df) = None ->
  set_column n ty vs df
  = mkDataFrame (columns df ++ [(n, ty)])
                (zip_rows (fun r v => r ++ [v]) (rows df) vs).
Proof. intros H. unfold set_column. now rewrite H. Qed.

Lemma rectangular_append (n : string) (ty : dtype) (vs : list cell)
  (df : DataFrame) :
  rectangular df = true ->
  index_of n (columns df) = None ->
  rectangular (set_column n ty vs df) = true.
Proof.
  intros Hr Hn. rewrite set_column_fresh by exact Hn.
  unfold rectangular, shape1. simpl. apply forallb_forall. intros r' Hin.
  apply in_zip_append in Hin as (r & v & Hin & ->).
  rewrite !length_app. simpl. apply Nat.eqb_eq.
  now rewrite (rectangular_spec df Hr r Hin).
Qed.

Lemma names_append (n : string) (ty : dtype) (vs : list cell)
  (df : DataFrame) :
  index_of n (columns df) = None ->
  names (set_column n ty vs df) = names df ++ [n].
Proof.
  intros Hn. rewrite set_column_fresh by exact Hn.
  unfold names. simpl. now rewrite map_app.
Qed.

Lemma get_column_old (n m : string) (ty : dtype) (vs : list cell)
  (df : DataFrame) :
  rectangular df = true ->
  index_of n (columns df) = None ->
  m <> n ->
  get_column m (set_column n ty vs df) = get_column m df.
Proof.
  intros Hr Hn Hne. rewrite set_column_fresh by exact Hn.
  unfold get_column, column_at. simpl.
  destruct (index_of m (columns df)) as [i|] eqn:E.
  - rewrite (index_of_app_old m _ _ i E). simpl. f_equal.
    apply column_old_after_append. intros r Hin.
    rewrite (rectangular_spec df Hr r Hin).
    apply (index_of_lt m _ _ E).
  - now rewrite index_of_app_other.
Qed.

Lemma get_column_new (n : string) (ty : dtype) (vs : list cell)
  (df : DataFrame) :
  rectangular df = true ->
  index_of n (columns df) = None ->
  length vs = len df ->
  get_column n (set_column n ty vs df) = Some vs.
Proof.
  intros Hr Hn Hl. rewrite set_column_fresh by exact Hn.
  unfold get_column, column_at. simpl.
  rewrite index_of_app_new by exact Hn. simpl. f_equal.
  apply column_new_after_append; [|exact Hl].
  intros r Hin. apply (rectangular_spec df Hr r Hin).
Qed.

End FrameFacts.

(* ===================================================================== *)
(** * Verification: the enrichment stage *)
(* ===================================================================== *)

Section EnrichFacts.

Import Lambda.

Lemma index_of_fresh (n : string) (df : DataFrame) :
  ~ In n (names df) -> index_of n (columns df) = None.
Proof. intros H. now apply index_of_none. Qed.

Lemma extends_refl (df : DataFrame) :
  rectangular df = true -> extends df df [].
Proof.
  intros H. unfold extends. rewrite app_nil_r. auto.
Qed.

Lemma extends_append (df0 df : DataFrame) (extra : list string)
  (n : string) (ty : dtype) (vs : list cell) :
  extends df0 df extra ->
  ~ In n (names df0 ++ extra) ->
  extends df0 (set_column n ty vs df) (extra ++ [n]).
Proof.
  intros (Hr & Hl & Hn & Hg) Hfresh. rewrite <- Hn in Hfresh.
  pose proof (index_of_fresh n df Hfresh) as Hi.
  repeat split.
  - now apply rectangular_append.
  - now rewrite len_set_column.
  - rewrite names_append by exact Hi. now rewrite Hn, app_assoc.
  - intros m Hm. rewrite get_column_old; auto.
    intros ->. apply Hfresh. rewrite Hn. apply in_or_app. now left.
Qed.

Lemma extends_trans (a b c : DataFrame) (e1 e2 : list string) :
  extends a b e1 -> extends b c e2 -> extends a c (e1 ++ e2).
Proof.
  intros (_ & Hl1 & Hn1 & Hg1) (Hr2 & Hl2 & Hn2 & Hg2). repeat split.
  - exact Hr2.
  - congruence.
  - now rewrite Hn2, Hn1, app_assoc.
  - intros n Hn. rewrite Hg2, Hg1; auto.
    rewrite Hn1. apply in_or_app. now left.
Qed.

Lemma extends_new (df0 df : DataFrame) (extra : list string)
  (n : string) (ty : dtype) (vs : list cell) :
  extends df0 df extra ->
  ~ In n (names df0 ++ extra) ->
  length vs = len df0 ->
  get_column n (set_column n ty vs df) = Some vs.
Proof.
  intros (Hr & Hl & Hn & Hg) Hfresh Hvs. rewrite <- Hn in Hfresh.
  apply get_column_new; auto using index_of_fresh. congruence.
Qed.

Lemma column_values_extends (df0 df : DataFrame) (extra : list string)
  (c : string) :
  extends df0 df extra -> In c (names df0) ->
  column_values c df = column_values c df0.
Proof.
  intros (_ & _ & _ & Hg) Hc. unfold column_values. now rewrite Hg.
Qed.

Lemma length_column_values (c : string) (df : DataFrame) :
  In c (names df) -> length (column_values c df) = len df.
Proof.
  intros Hc. unfold column_values, get_column.
  destruct (index_of c (columns df)) as [i|] eqn:E.
  - simpl. unfold column_at, len. now rewrite length_map.
  - apply index_of_none in E. tauto.
Qed.

Lemma length_normalized_values (c : string) (df : DataFrame) :
  In c (names df) -> spread df c = true ->
  length (normalized_values df c) = len df.
Proof.
  intros Hc Hs. unfold normalized_values, spread in *.
  destruct (col_min _); [|discriminate].
  destruct (col_max _); [|discriminate].
  rewrite length_map. now apply length_column_values.
Qed.

Lemma normalize_step_spread (df : DataFrame) (c : string) :
  normalize_step df c
  = if spread df c
    then set_column (normalized_name c) Number (normalized_values df c) df
    else df.
Proof.
  unfold normalize_step, spread, normalized_values.
  destruct (col_min _); [|reflexivity].
  destruct (col_max _); reflexivity.
Qed.

Lemma spread_extends (df0 df : DataFrame) (extra : list string) (c : string) :
  extends df0 df extra -> In c (names df0) ->
  spread df c = spread df0 c
  /\ normalized_values df c = normalized_values df0 c.
Proof.
  intros H Hc. unfold spread, normalized_values.
  now rewrite (column_values_extends df0 df extra c H Hc).
Qed.

Lemma filter_spread_extends (df0 df : DataFrame) (extra cols : list string) :
  extends df0 df extra ->
  (forall c, In c cols -> In c (names df0)) ->
  List.filter (spread df) cols = List.filter (spread df0) cols.
Proof.
  intros H Hin. apply filter_ext_in. intros c Hc.
  now apply (spread_extends df0 df extra c H), Hin.
Qed.

(** The loop over the chosen columns appends [<c>_normalized] for the
    columns with a spread, in order, and touches nothing else. *)
Lemma normalize_loop (cols : list string) :
  forall df : DataFrame,
    rectangular df = true ->
    List.NoDup (names df ++ map normalized_name cols) ->
    (forall c, In c cols -> In c (names df)) ->
    let out := fold_left normalize_step cols df in
    let chosen := List.filter (spread df) cols in
    extends df out (map normalized_name chosen)
    /\ (forall c, In c chosen ->
          get_column (normalized_name c) out
          = Some (normalized_values df c)).
Proof.
  induction cols as [|c cols IH]; intros df Hr Hnd Hin; cbn zeta.
  - simpl. split; [now apply extends_refl | intros c []].
  - cbn [fold_left List.filter].
    assert (Hc : In c (names df)) by (apply Hin; now left).
    assert (Hin' : forall c', In c' cols -> In c' (names df))
      by (intros; apply Hin; now right).
    rewrite normalize_step_spread.
    destruct (spread df c) eqn:Hs.
    + assert (Hfresh : ~ In (normalized_name c) (names df ++ [])).
      { rewrite app_nil_r. simpl in Hnd. apply NoDup_remove_2 in Hnd.
        intros H. apply Hnd. apply in_or_app. now left. }
      pose proof (extends_append df df [] (normalized_name c) Number
                    (normalized_values df c) (extends_refl df Hr) Hfresh)
        as Hext1.
      pose proof (extends_new df df [] (normalized_name c) Number
                    (normalized_values df c) (extends_refl df Hr) Hfresh
                    (length_normalized_values c df Hc Hs)) as Hnew.
      set (df1 := set_column _ _ _ df) in *. simpl app in Hext1.
      assert (Hin1 : forall c', In c' cols -> In c' (names df1)).
      { intros c' Hc'. destruct Hext1 as (_ & _ & -> & _).
        apply in_or_app. left. auto. }
      destruct (IH df1) as [Hout Hcols]; [apply Hext1 | | exact Hin1 |].
      { destruct Hext1 as (_ & _ & -> & _). rewrite <- app_assoc. exact Hnd. }
      cbn zeta in Hout, Hcols.
      rewrite (filter_spread_extends df df1 _ cols Hext1 Hin') in Hout, Hcols.
      split.
      * apply (extends_trans df df1 _ [normalized_name c] _ Hext1 Hout).
      * intros c' [<-|Hc'].
        -- destruct Hout as (_ & _ & _ & Hg). rewrite Hg; [exact Hnew|].
           destruct Hext1 as (_ & _ & -> & _). apply in_or_app. right.
           now left.
        -- rewrite (Hcols c' Hc'). f_equal.
           apply (spread_extends df df1 _ c' Hext1).
           apply Hin'. apply filter_In in Hc'. tauto.
    + simpl in Hnd. apply NoDup_remove_1 in Hnd.
      destruct (IH df Hr Hnd Hin') as [Hout Hcols]. split; auto.
Qed.

(** ** Row-wise aggregates are blind to appended columns *)

Lemma positions_append (cols : list string) (n : string) (ty : dtype)
  (vs : list cell) (df : DataFrame) :
  index_of n (columns df) = None ->
  (forall c, In c cols -> In c (names df)) ->
  positions cols (set_column n ty vs df) = positions cols df.
Proof.
  intros Hn Hin. rewrite set_column_fresh by exact Hn.
  unfold positions. simpl. induction cols as [|c cols IH]; [reflexivity|].
  cbn [omap list_omap].
  destruct (index_of c (columns df)) as [i|] eqn:E.
  - rewrite (index_of_app_old c _ _ i E). f_equal.
    apply IH. intros; apply Hin; now right.
  - apply index_of_none in E. exfalso. apply E, Hin. now left.
Qed.

Lemma positions_lt (cols : list string) (df : DataFrame) (i : nat) :
  In i (positions cols df) -> (i < shape1 df)%nat.
Proof.
  unfold positions. induction cols as [|c cols IH]; [intros []|].
  cbn [omap list_omap].
  destruct (index_of c (columns df)) as [j|] eqn:E; [|exact IH].
  intros [<-|H]; [|auto]. apply (index_of_lt c _ _ E).
Qed.

Lemma map_zip_append {B} (g : row -> B) (rs : list row) (vs : list cell) :
  (forall r v, In r rs -> g (r ++ [v]) = g r) ->
  map g (zip_rows (fun r v => r ++ [v]) rs vs) = map g rs.
Proof.
  revert vs. induction rs as [|r rs IH]; intros vs H; [reflexivity|].
  destruct vs as [|v vs]; simpl; (rewrite H by now left); f_equal;
    apply IH; intros; apply H; now right.
Qed.

Lemma select_append (idx : list nat) (r : row) (v : cell) :
  (forall i, In i idx -> (i < length r)%nat) ->
  select idx (r ++ [v]) = select idx r.
Proof.
  intros H. unfold select. apply map_ext_in. intros i Hi.
  apply app_nth1. auto.
Qed.

Lemma aggregate_append (f : list cell -> cell) (cols : list string)
  (n : string) (ty : dtype) (vs : list cell) (df : DataFrame) :
  rectangular df = true ->
  index_of n (columns df) = None ->
  (forall c, In c cols -> In c (names df)) ->
  aggregate f cols (set_column n ty vs df) = aggregate f cols df.
Proof.
  intros Hr Hn Hin. unfold aggregate.
  rewrite positions_append by assumption.
  rewrite set_column_fresh by exact Hn. simpl.
  apply map_zip_append. intros r v Hr'. f_equal. apply select_append.
  intros i Hi. rewrite (rectangular_spec df Hr r Hr').
  now apply (positions_lt cols).
Qed.

Lemma length_aggregate (f : list cell -> cell) (cols : list string)
  (df : DataFrame) : length (aggregate f cols df) = len df.
Proof. unfold aggregate, len. apply length_map. Qed.

Lemma numeric_columns_in (df : DataFrame) (c : string) :
  In c (numeric_columns df) -> In c (names df).
Proof.
  unfold numeric_columns, names. rewrite !in_map_iff.
  intros (x & E & Hx). apply filter_In in Hx as [Hx _]. eauto.
Qed.

Lemma In_firstn {A} (k : nat) (l : list A) (x : A) :
  In x (firstn k l) -> In x l.
Proof.
  intros H. rewrite <- (firstn_skipn k l). apply in_or_app. now left.
Qed.

Lemma firstn_min {A} (k : nat) (l : list A) :
  firstn (Nat.min k (length l)) l = firstn k l.
Proof.
  destruct (Nat.le_ge_cases k (length l)) as [H|H].
  - now rewrite Nat.min_l.
  - rewrite Nat.min_r by exact H. now rewrite firstn_all, firstn_all2.
Qed.

(** ** The shape of the enriched frame *)

Lemma append_extends (n : string) (ty : dtype) (vs : list cell)
  (df : DataFrame) :
  rectangular df = true -> ~ In n (names df) ->
  extends df (set_column n ty vs df) [n].
Proof.
  intros Hr Hn.
  apply (extends_append df df [] n ty vs (extends_refl df Hr)).
  now rewrite app_nil_r.
Qed.

Lemma append_new (n : string) (ty : dtype) (vs : list cell)
  (df : DataFrame) :
  rectangular df = true -> ~ In n (names df) -> length vs = len df ->
  get_column n (set_column n ty vs df) = Some vs.
Proof.
  intros Hr Hn Hl. apply get_column_new; auto using index_of_fresh.
Qed.

Lemma chosen_incl (df : DataFrame) (x : string) :
  In x (map normalized_name
          (List.filter (spread df) (firstn 3 (numeric_columns df)))) ->
  In x (map normalized_name (numeric_columns df)).
Proof.
  rewrite !in_map_iff. intros (c & E & Hc).
  apply filter_In in Hc as [Hc _]. apply In_firstn in Hc. eauto.
Qed.

Lemma first_three_NoDup (N : list string) (nc : list string) (T : list string) :
  List.NoDup (N ++ map normalized_name nc ++ T) ->
  List.NoDup (N ++ map normalized_name (firstn 3 nc)).
Proof.
  intros H. rewrite <- (firstn_skipn 3 nc) in H at 1.
  rewrite map_app, <- app_assoc, app_assoc in H.
  now apply NoDup_app_remove_r in H.
Qed.

(** Every label is fresh when it is assigned, if the input labels and
    the assigned labels are pairwise distinct. *)
#[local] Set Warnings "-clear-no-such-hyp".
Lemma assigned_fresh (N M C : list string) (s m d t h : string) :
  List.NoDup (N ++ [s; m; d] ++ M ++ [t; h]) ->
  (forall x, In x C -> In x M) ->
  ~ In s N
  /\ ~ In m (N ++ [s])
  /\ ~ In d (N ++ [s; m])
  /\ ~ In t (N ++ [s; m; d] ++ C)
  /\ ~ In h (N ++ [s; m; d] ++ C ++ [t]).
Proof.
  intros Hnd Hsub.
  assert (Hsub' : forall x, x ∈ C -> x ∈ M).
  { intros x. rewrite !list_elem_of_In. apply Hsub. }
  clear Hsub. rewrite <- !list_elem_of_In.
  apply NoDup_ListNoDup in Hnd.
  rewrite NoDup_app in Hnd. destruct Hnd as (_ & Hl & Hr).
  simpl in Hr. rewrite !NoDup_cons, NoDup_app, !NoDup_cons in Hr.
  repeat split; set_solver.
Qed.

Lemma transform_data_numeric (sqrt : Q -> Q) (hash : row -> Z) (now : string)
  (df : DataFrame) :
  rectangular df = true ->
  List.NoDup (names df ++ assigned df) ->
  numeric_columns df <> [] ->
  let nc := numeric_columns df in
  let chosen := List.filter (spread df) (firstn 3 nc) in
  let out := transform_data sqrt hash now df in
  extends df out
    (["numeric_sum"; "numeric_mean"; "numeric_std"]
     ++ map normalized_name chosen ++ ["transform_timestamp"; "record_hash"])
  /\ get_column "numeric_sum" out = Some (aggregate row_sum nc df)
  /\ get_column "numeric_mean" out = Some (aggregate row_mean nc df)
  /\ get_column "numeric_std" out = Some (aggregate (row_std sqrt) nc df)
  /\ (forall c, In c chosen ->
        get_column (normalized_name c) out = Some (normalized_values df c)).
Proof.
  intros Hr Hnd Hne. cbn zeta. unfold transform_data.
  assert (Hpos : (0 <? length (numeric_columns df))%nat = true).
  { destruct (numeric_columns df); [congruence | reflexivity]. }
  rewrite Hpos, firstn_min. clear Hpos.
  pose proof (numeric_columns_in df) as Hnc.
  unfold assigned in Hnd.
  destruct (assigned_fresh _ _ _ _ _ _ _ _ Hnd (chosen_incl df))
    as (F1 & F2 & F3 & F4 & F5).
  assert (Hloop : List.NoDup
            ((names df ++ ["numeric_sum"; "numeric_mean"; "numeric_std"])
             ++ map normalized_name (firstn 3 (numeric_columns df)))).
  { rewrite app_assoc in Hnd. now apply first_three_NoDup in Hnd. }
  clear Hnd.
  set (nc := numeric_columns df) in *.
  set (N := names df) in *.
  set (chosen := List.filter (spread df) (firstn 3 nc)) in *.
  (* numeric_sum *)
  pose proof (append_extends "numeric_sum" Number
                (aggregate row_sum nc df) df Hr F1) as X1.
  pose proof (append_new "numeric_sum" Number (aggregate row_sum nc df) df
                Hr F1 (length_aggregate _ _ _)) as V1.
  set (df1 := set_column "numeric_sum" _ _ df) in *.
  assert (A1 : forall f, aggregate f nc df1 = aggregate f nc df).
  { intros f. apply aggregate_append; auto using index_of_fresh. }
  rewrite A1.
  destruct X1 as (R1 & L1 & N1 & G1). fold N in N1.
  (* numeric_mean *)
  rewrite <- N1 in F2.
  pose proof (append_extends "numeric_mean" Number
                (aggregate row_mean nc df) df1 R1 F2) as X2.
  pose proof (append_new "numeric_mean" Number (aggregate row_mean nc df) df1
                R1 F2) as V2.
  rewrite length_aggregate in V2. specialize (V2 (eq_sym L1)).
  set (df2 := set_column "numeric_mean" _ _ df1) in *.
  assert (A2 : forall f, aggregate f nc df2 = aggregate f nc df).
  { intros f. rewrite <- A1. apply aggregate_append;
      auto using index_of_fresh.
    intros c Hc. rewrite N1. apply in_or_app. left. now apply Hnc. }
  rewrite A2.
  destruct X2 as (R2 & L2 & N2 & G2). rewrite N1, <- app_assoc in N2.
  simpl in N2.
  (* numeric_std *)
  rewrite <- N2 in F3.
  pose proof (append_extends "numeric_std" Number
                (aggregate (row_std sqrt) nc df) df2 R2 F3) as X3.
  pose proof (append_new "numeric_std" Number
                (aggregate (row_std sqrt) nc df) df2 R2 F3) as V3.
  rewrite length_aggregate in V3.
  specialize (V3 ltac:(congruence)).
  set (df3 := set_column "numeric_std" _ _ df2) in *.
  destruct X3 as (R3 & L3 & N3 & G3). rewrite N2, <- app_assoc in N3.
  simpl in N3.
  (* the normalization loop *)
  rewrite <- N3 in Hloop.
  assert (H3 : forall c, In c (firstn 3 nc) -> In c (names df3)).
  { intros c Hc. rewrite N3. apply in_or_app. left.
    apply Hnc. now apply In_firstn in Hc. }
  destruct (normalize_loop (firstn 3 nc) df3 R3 Hloop H3) as [X4 V4].
  cbn zeta in X4, V4.
  set (df4 := fold_left normalize_step (firstn 3 nc) df3) in *.
  assert (E03 : extends df df3 ["numeric_sum"; "numeric_mean"; "numeric_std"]).
  { repeat split; auto; try congruence.
    intros n Hn. rewrite G3, G2, G1; auto.
    - rewrite N1. apply in_or_app. now left.
    - rewrite N2. apply in_or_app. now left. }
  assert (Hin3 : forall c, In c (firstn 3 nc) -> In c (names df)).
  { intros c Hc. apply Hnc. now apply In_firstn in Hc. }
  rewrite (filter_spread_extends df df3 _ _ E03 Hin3) in X4, V4.
  fold chosen in X4, V4.
  destruct X4 as (R4 & L4 & N4 & G4). pose proof N4 as N4r.
  rewrite N3, <- app_assoc in N4.
  (* the metadata columns *)
  assert (F4' : ~ In "transform_timestamp" (names df4))
    by (rewrite N4; exact F4).
  pose proof (append_extends "transform_timestamp" Text
                (repeat (Str now) (len df4)) df4 R4 F4') as X5.
  set (df5 := set_column "transform_timestamp" _ _ df4) in *.
  destruct X5 as (R5 & L5 & N5 & G5). pose proof N5 as N5r.
  rewrite N4, <- !app_assoc in N5.
  assert (F5' : ~ In "record_hash" (names df5))
    by (rewrite N5; exact F5).
  pose proof (append_extends "record_hash" Number
                (map (fun r => Num (inject_Z (hash r))) (rows df5)) df5 R5 F5')
    as X6.
  set (df6 := set_column "record_hash" _ _ df5) in *.
  destruct X6 as (R6 & L6 & N6 & G6). rewrite N5, <- !app_assoc in N6.
  (* every older column survives to the end *)
  assert (K4 : forall n, In n (names df4) -> get_column n df6 = get_column n df4).
  { intros n Hn. rewrite G6, G5; auto.
    rewrite N5r. apply in_or_app. now left. }
  assert (K3 : forall n, In n (names df3) -> get_column n df6 = get_column n df3).
  { intros n Hn. rewrite K4, G4; auto.
    rewrite N4r. apply in_or_app. now left. }
  repeat split.
  - exact R6.
  - congruence.
  - exact N6.
  - intros n Hn. rewrite K3; [now apply E03|].
    rewrite N3. apply in_or_app. now left.
  - rewrite K3, G3, G2; [exact V1 | | |].
    + rewrite N1. apply in_or_app. right. now left.
    + rewrite N2. apply in_or_app. right. now left.
    + rewrite N3. apply in_or_app. right. now left.
  - rewrite K3, G3; [exact V2 | |].
    + rewrite N2. apply in_or_app. right. right. now left.
    + rewrite N3. apply in_or_app. right. right. now left.
  - rewrite K3; [exact V3|].
    rewrite N3. apply in_or_app. right. right. right. now left.
  - intros c Hc. rewrite K4.
    + rewrite (V4 c Hc). f_equal.
      apply (spread_extends df df3 _ c E03). apply Hin3.
      apply filter_In in Hc. tauto.
    + rewrite N4. apply in_or_app. right. apply in_or_app. right.
      now apply in_map.
Qed.

Lemma transform_data_plain (sqrt : Q -> Q) (hash : row -> Z) (now : string)
  (df : DataFrame) :
  rectangular df = true ->
  List.NoDup (names df ++ assigned df) ->
  numeric_columns df = [] ->
  extends df (transform_data sqrt hash now df)
    ["transform_timestamp"; "record_hash"].
Proof.
  intros Hr Hnd Hnc. unfold transform_data, assigned in *.
  rewrite Hnc in *. simpl in Hnd. cbn [length Nat.ltb Nat.leb].
  destruct (assigned_fresh (names df) [] [] _ _ _ _ _ Hnd (fun x H => H))
    as (_ & _ & _ & F4 & F5).
  assert (F4' : ~ In "transform_timestamp" (names df)).
  { intros H. apply F4. apply in_or_app. now left. }
  pose proof (append_extends "transform_timestamp" Text
                (repeat (Str now) (len df)) df Hr F4') as X5.
  set (df5 := set_column "transform_timestamp" _ _ df) in *.
  assert (F5' : ~ In "record_hash" (names df5)).
  { destruct X5 as (_ & _ & -> & _). intros H. apply F5.
    apply in_app_or in H as [H|H]; apply in_or_app; [now left|].
    right. simpl in *. tauto. }
  pose proof (append_extends "record_hash" Number
                (map (fun r => Num (inject_Z (hash r))) (rows df5)) df5
                (proj1 X5) F5') as X6.
  apply (extends_trans df df5 _ _ _ X5 X6).
Qed.

(** ** Minimum, maximum and the normalized values *)










(** ** Labels that are not assigned *)








(** ** The row-wise aggregates *)

Lemma length_present (cs : list cell) :
  (length (present cs) <= length cs)%nat.
Proof.
  induction cs as [|[q|s|] cs IH]; simpl; lia.
Qed.

Lemma length_positions (cols : list string) (df : DataFrame) :
  (length (positions cols df) <= length cols)%nat.
Proof.
  unfold positions. induction cols as [|c cols IH]; [simpl; lia|].
  cbn [omap list_omap length].
  destruct (index_of c (columns df)); cbn [length]; lia.
Qed.

Lemma row_std_missing (sqrt : Q -> Q) (cs : list cell) :
  row_std sqrt cs = NA <-> (length (present cs) < 2)%nat.
Proof.
  unfold row_std. destruct (length (present cs) <? 2)%nat eqn:E.
  - apply Nat.ltb_lt in E. tauto.
  - apply Nat.ltb_ge in E. split; [discriminate | lia].
Qed.

Lemma map_constant {A B} (g : A -> B) (b : B) (l : list A) :
  (forall a, In a l -> g a = b) -> map g l = repeat b (length l).
Proof.
  induction l as [|a l IH]; simpl; intros H; [reflexivity|].
  rewrite H by now left. f_equal. apply IH. auto.
Qed.

(** C7. On a rectangular frame with at least one numeric column whose
    labels do not clash with the assigned ones, enrichment adds
    [numeric_sum], [numeric_mean] and [numeric_std], each computed row by
    row over the cells of the numeric columns.  [numeric_std] is the
    sample deviation: it is missing exactly in the rows with fewer than
    two numbers, hence in every row when there is a single numeric
    column. *)
Theorem aggregates_spec (sqrt : Q -> Q) (hash : row -> Z) (now : string)
  (df : DataFrame) :
  rectangular df = true ->
  distinct (names df ++ assigned df) = true ->
  numeric_columns df <> [] ->
  let out := transform_data sqrt hash now df in
  get_column "numeric_sum" out
  = Some (map (fun r => row_sum (numeric_cells df r)) (rows df))
  /\ get_column "numeric_mean" out
     = Some (map (fun r => row_mean (numeric_cells df r)) (rows df))
  /\ get_column "numeric_std" out
     = Some (map (fun r => row_std sqrt (numeric_cells df r)) (rows df))
  /\ (forall r, row_std sqrt (numeric_cells df r) = NA
                <-> (length (present (numeric_cells df r)) < 2)%nat)
  /\ (length (numeric_columns df) = 1%nat ->
      get_column "numeric_std" out = Some (repeat NA (len df))).
Proof.
  intros Hr Hd Hne. apply distinct_NoDup in Hd. cbn zeta.
  destruct (transform_data_numeric sqrt hash now df Hr Hd Hne)
    as (_ & Hs & Hm & Hsd & _).
  cbn zeta in *. repeat split; auto.
  - now apply row_std_missing.
  - now apply row_std_missing.
  - intros H1. rewrite Hsd. f_equal. unfold aggregate.
    apply map_constant. intros r _. apply row_std_missing.
    eapply Nat.le_lt_trans; [apply length_present|].
    unfold select. rewrite length_map.
    pose proof (length_positions (numeric_columns df) df) as Hp.
    rewrite H1 in Hp. lia.
Qed.

Lemma aggregates_spec_witness :
  rectangular Samples.single = true
  /\ distinct (names Samples.single ++ assigned Samples.single) = true
  /\ numeric_columns Samples.single <> []
  /\ get_column "numeric_sum"
       (transform_data (fun q => q) (fun _ => 0%Z) "t0" Samples.single)
     = Some [Num 1; Num 3].
Proof.
  assert (Hne : numeric_columns Samples.single <> []) by discriminate.
  split; [reflexivity|]. split; [reflexivity|]. split; [exact Hne|].
  exact (proj1 (aggregates_spec (fun q => q) (fun _ => 0%Z) "t0"
                  Samples.single eq_refl eq_refl Hne)).
Defined.

(** C7, as stated, fails: with a single numeric column [numeric_std] is
    missing in every row. *)
Lemma single_column_std_missing :
  len Samples.single = 2%nat
  /\ numeric_columns Samples.single = ["x"]
  /\ get_column "numeric_std"
       (transform_data (fun q => q) (fun _ => 0%Z) "t0" Samples.single)
     = Some [NA; NA].
Proof.
  repeat split; vm_compute; reflexivity.
Qed.

End EnrichFacts.


(* ===================================================================== *)
(** * Further facts: run metrics *)
(* ===================================================================== *)

Section MetricsMore.

Import Metrics.

Lemma inject_nat_pos (n : nat) : (0 < n)%nat -> 0 < inject_Z (Z.of_nat n).
Proof.
  intros H. change 0 with (inject_Z 0). rewrite <- Zlt_Qlt. lia.
Qed.

Lemma inject_nat_le (a b : nat) :
  (a <= b)%nat -> inject_Z (Z.of_nat a) <= inject_Z (Z.of_nat b).
Proof. intros H. rewrite <- Zle_Qle. lia. Qed.

Lemma length_filter_le {A} (f : A -> bool) (l : list A) :
  (length (List.filter f l) <= length l)%nat.
Proof.
  induction l as [|a l IH]; simpl; [lia|]. destruct (f a); simpl; lia.
Qed.

Lemma percentage_bounds (x y : Q) :
  0 <= x -> x <= y -> 0 < y -> 0 <= x / y * 100 /\ x / y * 100 <= 100.
Proof.
  intros H0 Hle Hpos.
  assert (Hq0 : 0 <= x / y) by (apply Qle_shift_div_l; lra).
  assert (Hq1 : x / y <= 1) by (apply Qle_shift_div_r; lra).
  split; lra.
Qed.

Lemma ratio_bounds (s n : nat) :
  (0 < n)%nat -> (s <= n)%nat ->
  0 <= inject_Z (Z.of_nat s) / inject_Z (Z.of_nat n) * 100
  /\ inject_Z (Z.of_nat s) / inject_Z (Z.of_nat n) * 100 <= 100.
Proof.
  intros Hn Hs. apply percentage_bounds.
  - change 0 with (inject_Z 0). rewrite <- Zle_Qle. lia.
  - now apply inject_nat_le.
  - now apply inject_nat_pos.
Qed.

(** X1. The success rate is a percentage, and the number of runs is the
    number of [add_run] calls, whatever their outcome. *)
Theorem success_rate_is_percentage (cs : list call) :
  0 <= get_success_rate (replay cs)
  /\ get_success_rate (replay cs) <= 100
  /\ get_total_runs (replay cs) = length cs.
Proof.
  unfold get_success_rate, get_total_runs. rewrite runs_replay.
  destruct cs as [|c cs]; [simpl; repeat split; lra|].
  set (l := map run_of_call (c :: cs)).
  change (match l with [] => 100 | _ => ?x end) with x.
  destruct (ratio_bounds (length (List.filter success l)) (length l))
    as [H0 H1]; [subst l; simpl; lia | apply length_filter_le |].
  repeat split; try assumption. subst l. apply length_map.
Qed.

Lemma filter_none {A} (f : A -> bool) (l : list A) :
  forallb (fun a => negb (f a)) l = true -> List.filter f l = [].
Proof.
  induction l as [|a l IH]; simpl; [reflexivity|].
  intros H. apply andb_prop in H as [Ha Hl].
  apply negb_true_iff in Ha. rewrite Ha. auto.
Qed.

Lemma filter_all {A} (f : A -> bool) (l : list A) :
  forallb f l = true -> List.filter f l = l.
Proof.
  induction l as [|a l IH]; simpl; [reflexivity|].
  intros H. apply andb_prop in H as [Ha Hl]. rewrite Ha. f_equal. auto.
Qed.

Lemma successful_records_none (rs : list run) :
  forallb (fun r => negb (success r)) rs = true -> successful_records rs = 0%Z.
Proof.
  induction rs as [|r rs IH]; simpl; [reflexivity|].
  intros H. apply andb_prop in H as [Hr Hs].
  apply negb_true_iff in Hr. rewrite Hr, (IH Hs). reflexivity.
Qed.

(** X2. When every recorded run failed, the success rate is 0 and no record
    is counted, whatever record counts the failed runs reported. *)
Theorem all_failed_rate (cs : list call) :
  cs <> [] ->
  forallb (fun c => negb (c_success c)) cs = true ->
  get_success_rate (replay cs) == 0
  /\ get_total_records (replay cs) = 0%Z.
Proof.
  intros Hne Hall. unfold get_success_rate, get_total_records.
  rewrite total_records_replay, runs_replay.
  assert (Hruns : forallb (fun r => negb (success r)) (map run_of_call cs)
                  = true).
  { rewrite forallb_forall in *. intros r Hr.
    apply in_map_iff in Hr as (c & <- & Hc). now apply Hall. }
  split; [|now apply successful_records_none].
  destruct cs as [|c cs]; [congruence|].
  set (l := map run_of_call (c :: cs)) in *.
  change (match l with [] => 100 | _ => ?x end) with x.
  rewrite (filter_none success l Hruns). simpl length.
  unfold Qdiv. ring.
Qed.

Lemma all_failed_rate_witness :
  let cs := [mkCall "t0" 0 false 0; mkCall "t1" 0 false 7] in
  cs <> []
  /\ forallb (fun c => negb (c_success c)) cs = true
  /\ get_success_rate (replay cs) == 0
  /\ get_total_records (replay cs) = 0%Z.
Proof.
  cbv zeta.
  assert (Hne : [mkCall "t0" 0 false 0; mkCall "t1" 0 false 7] <> [])
    by discriminate.
  split; [exact Hne|]. split; [reflexivity|].
  exact (all_failed_rate _ Hne eq_refl).
Defined.

(** X3. When every recorded run succeeded, the success rate is 100. *)
Theorem all_succeeded_rate (cs : list call) :
  forallb c_success cs = true ->
  get_success_rate (replay cs) == 100.
Proof.
  intros Hall. unfold get_success_rate. rewrite runs_replay.
  assert (Hruns : forallb success (map run_of_call cs) = true).
  { rewrite forallb_forall in *. intros r Hr.
    apply in_map_iff in Hr as (c & <- & Hc). now apply Hall. }
  destruct cs as [|c cs]; [reflexivity|].
  set (l := map run_of_call (c :: cs)) in *.
  change (match l with [] => 100 | _ => ?x end) with x.
  rewrite (filter_all success l Hruns).
  assert (Hpos : 0 < inject_Z (Z.of_nat (length l))).
  { apply inject_nat_pos. subst l. simpl. lia. }
  unfold Qdiv. rewrite Qmult_inv_r; [ring | lra].
Qed.

Lemma all_succeeded_rate_witness :
  let cs := [mkCall "t0" 1.5 true 10; mkCall "t1" 2 true 7] in
  forallb c_success cs = true
  /\ get_success_rate (replay cs) == 100.
Proof.
  cbv zeta. split; [reflexivity|].
  exact (all_succeeded_rate
           [mkCall "t0" 1.5 true 10; mkCall "t1" 2 true 7] eq_refl).
Defined.




End MetricsMore.

(* ===================================================================== *)
(** * Further facts: quality checker *)
(* ===================================================================== *)

Section QualityMore.

Import Quality Notions.

Lemma Qeq_bool_pos (y : Q) : 0 < y -> Qeq_bool y 0 = false.
Proof.
  intros H. destruct (Qeq_bool y 0) eqn:E; [|reflexivity].
  apply Qeq_bool_iff in E. lra.
Qed.

(** A score [part / whole * 100] with a positive [whole]. *)
Lemma score_value (part whole : nat) :
  (0 < whole)%nat ->
  Float.mul (Float.div (of_nat part) (of_nat whole)) (Fin 100)
  = Fin (inject_Z (Z.of_nat part) / inject_Z (Z.of_nat whole) * 100).
Proof.
  intros H. unfold of_nat, Float.of_Z, Float.div.
  now rewrite (Qeq_bool_pos _ (inject_nat_pos whole H)).
Qed.

Lemma validity_loop_spec (df : DataFrame) (cols : list string) :
  forall (v : Q) (iss : list issue),
    let hits := List.filter (offending df) cols in
    fst (validity_loop df cols v iss)
    == v - 5 * inject_Z (Z.of_nat (length hits))
    /\ snd (validity_loop df cols v iss) = iss ++ map NegativeValues hits.
Proof.
  induction cols as [|c cols IH]; intros v iss; cbn zeta.
  - simpl. rewrite app_nil_r. split; [|reflexivity].
    change (inject_Z (Z.of_nat 0)) with 0. ring.
  - cbn [validity_loop List.filter].
    change (offending df c) with (any_negative (column_values c df)).
    destruct (any_negative (column_values c df)).
    + destruct (IH (v - 5) (iss ++ [NegativeValues c])) as [Hv Hi].
      cbn zeta in Hv, Hi. split.
      * rewrite Hv. cbn [length]. rewrite Nat2Z.inj_succ. unfold Z.succ.
        rewrite inject_Z_plus. change (inject_Z 1) with 1. ring.
      * rewrite Hi. now rewrite <- app_assoc.
    + apply IH.
Qed.

Lemma max0_spec (v : Q) :
  (0 <= v -> max0 v = v) /\ (v < 0 -> max0 v = 0).
Proof.
  unfold max0. split; intros H.
  - apply Qle_bool_iff in H. now rewrite H.
  - destruct (Qle_bool 0 v) eqn:E; [|reflexivity].
    apply Qle_bool_iff in E. lra.
Qed.

(** X5. The validity score and the issue list, for every frame: 5 points are
    taken off per numeric column holding a negative value, never going
    below 0; the issues are the note on missing values (if any), one
    note per such column in column order, and the note on duplicate rows
    (if any), in this order. *)
Theorem validity_and_issues (df : DataFrame) :
  let r := check_quality df in
  let hits := List.filter (offending df) (numeric_columns df) in
  let k := length hits in
  validity r
  == (if (k <=? 20)%nat then 100 - 5 * inject_Z (Z.of_nat k) else 0)
  /\ 0 <= validity r /\ validity r <= 100
  /\ issues r
     = (if (0 <? missing_cells df)%nat
        then [MissingValues (missing_cells df)] else [])
       ++ map NegativeValues hits
       ++ (if (0 <? duplicate_rows df)%nat
           then [DuplicateRows (duplicate_rows df)] else []).
Proof.
  cbn zeta. unfold check_quality.
  set (iss0 := if (0 <? missing_cells df)%nat then [] ++ _ else []).
  destruct (validity_loop_spec df (numeric_columns df) 100 iss0) as [Hv Hi].
  cbn zeta in Hv, Hi.
  destruct (validity_loop df (numeric_columns df) 100 iss0) as [v iss].
  cbn [fst snd validity issues] in *.
  set (k := length (List.filter (offending df) (numeric_columns df))) in *.
  assert (Hk : 0 <= inject_Z (Z.of_nat k)).
  { change 0 with (inject_Z 0). rewrite <- Zle_Qle. lia. }
  destruct (max0_spec v) as [Hpos Hneg].
  assert (Hval : max0 v
            == (if (k <=? 20)%nat then 100 - 5 * inject_Z (Z.of_nat k) else 0)
            /\ 0 <= max0 v /\ max0 v <= 100).
  { destruct (k <=? 20)%nat eqn:E.
    - apply Nat.leb_le in E.
      assert (Hle : inject_Z (Z.of_nat k) <= 20).
      { change 20 with (inject_Z 20). rewrite <- Zle_Qle. lia. }
      rewrite Hpos by lra. repeat split; lra.
    - apply Nat.leb_gt in E.
      assert (Hgt : 21 <= inject_Z (Z.of_nat k)).
      { change 21 with (inject_Z 21). rewrite <- Zle_Qle. lia. }
      rewrite Hneg by lra. repeat split; lra. }
  destruct Hval as (H1 & H2 & H3). repeat split; auto.
  subst iss iss0.
  destruct (0 <? missing_cells df)%nat, (0 <? duplicate_rows df)%nat;
    simpl; rewrite ?app_nil_r, <- ?app_assoc; reflexivity.
Qed.

Lemma validity_loop_clean (df : DataFrame) (cols : list string) (v : Q)
  (iss : list issue) :
  forallb (fun c => negb (offending df c)) cols = true ->
  validity_loop df cols v iss = (v, iss).
Proof.
  revert v iss. induction cols as [|c cols IH]; intros v iss H; simpl.
  - reflexivity.
  - simpl in H. apply andb_prop in H as [Hc Hs].
    apply negb_true_iff in Hc. unfold offending in Hc. rewrite Hc. auto.
Qed.

(** X6. A frame with rows and columns, without missing cell, negative number
    or repeated row, scores 100 on every count and raises no issue. *)
Theorem check_quality_clean (df : DataFrame) :
  clean df = true ->
  let r := check_quality df in
  Float.same (completeness r) (Fin 100)
  /\ validity r = 100
  /\ Float.same (uniqueness r) (Fin 100)
  /\ Float.same (overall_score r) (Fin 100)
  /\ issues r = [].
Proof.
  unfold clean. intros H.
  apply andb_prop in H as [H Hdup]. apply andb_prop in H as [H Hneg].
  apply andb_prop in H as [Hne Hmiss].
  apply Nat.eqb_eq in Hdup, Hmiss. apply negb_true_iff in Hne.
  unfold is_empty in Hne. apply orb_false_elim in Hne as [Hr Hc].
  apply Nat.eqb_neq in Hr, Hc.
  cbn zeta. unfold check_quality. rewrite Hmiss, Hdup.
  rewrite (validity_loop_clean df _ 100 _ Hneg).
  cbn [Nat.ltb Nat.leb]. rewrite !Nat.sub_0_r.
  rewrite !score_value by (try apply Nat.mul_pos_pos; lia).
  cbn [completeness validity uniqueness overall_score issues Float.add
       Float.div Float.same].
  assert (Hcells : 0 < inject_Z (Z.of_nat (shape0 df * shape1 df))).
  { apply inject_nat_pos. apply Nat.mul_pos_pos; lia. }
  assert (Hrows : 0 < inject_Z (Z.of_nat (shape0 df))).
  { apply inject_nat_pos. lia. }
  set (x := inject_Z (Z.of_nat (shape0 df * shape1 df))) in *.
  set (y := inject_Z (Z.of_nat (shape0 df))) in *.
  assert (Ex : x / x * 100 == 100).
  { unfold Qdiv. rewrite Qmult_inv_r; [ring | lra]. }
  assert (Ey : y / y * 100 == 100).
  { unfold Qdiv. rewrite Qmult_inv_r; [ring | lra]. }
  change (Qeq_bool 3 0) with false. cbv iota.
  repeat split; auto.
  change ((x / x * 100 + 100 + y / y * 100) / 3 == 100).
  rewrite Ex, Ey. reflexivity.
Qed.

Lemma check_quality_clean_witness :
  clean Fixtures.tidy = true
  /\ validity (check_quality Fixtures.tidy) = 100
  /\ issues (check_quality Fixtures.tidy) = [].
Proof.
  split; [reflexivity|].
  destruct (check_quality_clean Fixtures.tidy eq_refl) as (_ & Hv & _ & _ & Hi).
  split; assumption.
Defined.

Lemma missing_cells_le (df : DataFrame) :
  rectangular df = true ->
  (missing_cells df <= shape0 df * shape1 df)%nat.
Proof.
  intros Hr. pose proof (rectangular_spec df Hr) as H.
  unfold missing_cells, shape0. induction (rows df) as [|r rs IH]; simpl.
  - lia.
  - assert (Hlen : length r = shape1 df) by (apply H; now left).
    pose proof (length_filter_le isnull r).
    assert (IH' : (list_sum (map (fun r => length (List.filter isnull r)) rs)
                   <= length rs * shape1 df)%nat).
    { apply IH. intros; apply H; now right. }
    lia.
Qed.

Lemma flags_le (seen rs : list row) :
  (length (List.filter (fun b : bool => b) (duplicated_from seen rs))
   <= length rs)%nat.
Proof.
  revert seen. induction rs as [|r rs IH]; intros seen; simpl; [lia|].
  specialize (IH (r :: seen)). destruct (existsb (row_eqb r) seen); simpl; lia.
Qed.

Lemma duplicate_rows_lt (df : DataFrame) :
  (0 < shape0 df)%nat -> (duplicate_rows df < shape0 df)%nat.
Proof.
  unfold duplicate_rows, duplicated, shape0. intros H.
  destruct (is_empty df); [simpl; lia|].
  destruct (rows df) as [|r rs]; [simpl in H; lia|].
  simpl. pose proof (flags_le [r] rs). lia.
Qed.

(** X7. On a rectangular frame with at least one row and one column every
    score is a number: completeness lies between 0 and 100, uniqueness is
    positive and at most 100 (the first row is never a duplicate). *)
Theorem check_quality_scores_in_range (df : DataFrame) :
  rectangular df = true ->
  is_empty df = false ->
  let r := check_quality df in
  exists c u o : Q,
    completeness r = Fin c /\ 0 <= c /\ c <= 100
    /\ uniqueness r = Fin u /\ 0 < u /\ u <= 100
    /\ overall_score r = Fin o.
Proof.
  intros Hrect Hne. unfold is_empty in Hne.
  apply orb_false_elim in Hne as [Hr Hc]. apply Nat.eqb_neq in Hr, Hc.
  assert (Hrows : (0 < shape0 df)%nat) by lia.
  assert (Hcells : (0 < shape0 df * shape1 df)%nat)
    by (apply Nat.mul_pos_pos; lia).
  pose proof (duplicate_rows_lt df Hrows) as Hd.
  cbn zeta. unfold check_quality.
  destruct (validity_loop df (numeric_columns df) 100 _) as [v iss].
  rewrite !score_value by assumption.
  cbn [completeness uniqueness overall_score Float.add Float.div].
  change (Qeq_bool 3 0) with false. cbv iota.
  do 3 eexists. split; [reflexivity|].
  destruct (ratio_bounds (shape0 df * shape1 df - missing_cells df)
              (shape0 df * shape1 df) Hcells ltac:(lia)) as [H1 H2].
  destruct (ratio_bounds (shape0 df - duplicate_rows df) (shape0 df)
              Hrows ltac:(lia)) as [H3 H4].
  repeat split; auto.
  assert (Hx : 0 < inject_Z (Z.of_nat (shape0 df - duplicate_rows df)))
    by (apply inject_nat_pos; lia).
  pose proof (inject_nat_pos (shape0 df) Hrows) as Hy.
  assert (Hq : 0 < inject_Z (Z.of_nat (shape0 df - duplicate_rows df))
                   / inject_Z (Z.of_nat (shape0 df)))
    by (apply Qlt_shift_div_l; lra).
  lra.
Qed.

Lemma check_quality_scores_in_range_witness :
  rectangular Fixtures.patchy = true
  /\ is_empty Fixtures.patchy = false
  /\ exists c u o : Q,
       completeness (check_quality Fixtures.patchy) = Fin c
       /\ 0 <= c /\ c <= 100
       /\ uniqueness (check_quality Fixtures.patchy) = Fin u
       /\ 0 < u /\ u <= 100
       /\ overall_score (check_quality Fixtures.patchy) = Fin o.
Proof.
  split; [reflexivity|]. split; [reflexivity|].
  exact (check_quality_scores_in_range Fixtures.patchy eq_refl eq_refl).
Defined.

End QualityMore.

(* ===================================================================== *)
(** * Further facts: storage and serving *)
(* ===================================================================== *)

Section StoreMore.

Import Py Athena Notions.

Lemma storage_after_upload (writable : string -> DataFrame -> bool)
  (df : DataFrame) (key : string) (s3 : S3.S3Simulator) :
  S3.storage (fst (S3.upload_data writable df key s3))
  = <[key := df]> (S3.storage s3).
Proof. unfold S3.upload_data. now destruct (writable _ df). Qed.

(** X8. What was uploaded under a key is what a download of that key returns,
    whether or not the CSV copy could be written; every other key keeps
    its object, and a key never uploaded yields [None]. *)
Theorem upload_then_download (writable : string -> DataFrame -> bool)
  (df : DataFrame) (key : string) (s3 : S3.S3Simulator) :
  let s3' := fst (S3.upload_data writable df key s3) in
  S3.download_data key s3' = Some df
  /\ (forall k : string,
        S3.download_data k s3'
        = if String.eqb k key then Some df else S3.download_data k s3)
  /\ (forall k : string, S3.download_data k S3.init = None)
  /\ match snd (S3.upload_data writable df key s3) with
     | Returned r => S3.key r = key /\ S3.size r = len df
     | Raised e => e = OSError (S3.csv_path s3 key)
     end.
Proof.
  cbn zeta. unfold S3.download_data. rewrite storage_after_upload.
  repeat split.
  - apply lookup_insert_eq.
  - intros k. destruct (String.eqb k key) eqn:E.
    + apply String.eqb_eq in E. subst. apply lookup_insert_eq.
    + apply String.eqb_neq in E. apply lookup_insert_ne. congruence.
  - unfold S3.upload_data. destruct (writable _ df); simpl; auto.
Qed.

Lemma head_prefix (n : Z) (df : DataFrame) :
  columns (head n df) = columns df
  /\ exists k : nat, (k <= len df)%nat /\ rows (head n df) = firstn k (rows df).
Proof.
  unfold head, len. destruct (0 <=? n)%Z; simpl; split; auto.
  - exists (Nat.min (Z.to_nat n) (length (rows df))). split; [lia|].
    now rewrite firstn_min.
  - exists (length (rows df) - Z.to_nat (- n))%nat. split; [lia | reflexivity].
Qed.

(** X9. Whatever the query text, the answer for a registered table has the
    columns of the table and, as rows, an initial segment of its rows;
    the call is logged with the number of rows returned. *)
Theorem execute_query_returns_prefix (now q tn : string)
  (a : AthenaSimulator) (df : DataFrame) :
  tables a !! tn = Some df ->
  let '(a', out) := execute_query now q tn a in
  columns out = columns df
  /\ (exists k : nat, (k <= len df)%nat /\ rows out = firstn k (rows df))
  /\ (len out <= len df)%nat
  /\ queries a' = queries a ++ [mkEntry q now (len out)].
Proof.
  intros H. unfold execute_query. rewrite H.
  assert (Hself : columns df = columns df
                  /\ exists k : nat, (k <= len df)%nat
                                     /\ rows df = firstn k (rows df)).
  { split; [reflexivity|]. exists (len df). split; [lia|].
    unfold len. now rewrite firstn_all. }
  assert (G : forall out : DataFrame,
            (columns out = columns df
             /\ exists k : nat, (k <= len df)%nat
                                /\ rows out = firstn k (rows df)) ->
            columns out = columns df
            /\ (exists k : nat, (k <= len df)%nat
                                /\ rows out = firstn k (rows df))
            /\ (len out <= len df)%nat
            /\ queries a ++ [mkEntry q now (len out)]
               = queries a ++ [mkEntry q now (len out)]).
  { intros out (Hc & k & Hk & Hrows). repeat split; eauto.
    unfold len in *. rewrite Hrows, length_firstn. lia. }
  destruct (contains LIMIT _); [destruct (parse_limit _) as [n|]|];
    apply G; auto using head_prefix.
Qed.

Lemma execute_query_returns_prefix_witness :
  tables (store_data Samples.ten_rows "t" init) !! "t"
  = Some Samples.ten_rows
  /\ let '(a', out) :=
       execute_query "t0" "select * limit 7 offset 1" "t"
         (store_data Samples.ten_rows "t" init) in
     columns out = columns Samples.ten_rows
     /\ (exists k : nat, (k <= len Samples.ten_rows)%nat
                         /\ rows out = firstn k (rows Samples.ten_rows))
     /\ (len out <= len Samples.ten_rows)%nat
     /\ queries a'
        = queries (store_data Samples.ten_rows "t" init)
          ++ [mkEntry "select * limit 7 offset 1" "t0" (len out)].
Proof.
  split; [reflexivity|].
  exact (execute_query_returns_prefix "t0" "select * limit 7 offset 1" "t"
           (store_data Samples.ten_rows "t" init) Samples.ten_rows eq_refl).
Defined.

(** X10. A query whose text does not contain the letters LIMIT (in any case)
    reads back exactly the frame registered last under the table name;
    registering a table leaves the other tables and the log alone. *)
Theorem store_then_query (now q tn : string) (a : AthenaSimulator)
  (old df : DataFrame) :
  contains LIMIT (upper (list_ascii_of_string q)) = false ->
  let a1 := store_data df tn (store_data old tn a) in
  snd (execute_query now q tn a1) = df
  /\ queries (fst (execute_query now q tn a1))
     = queries a ++ [mkEntry q now (len df)]
  /\ a1 = store_data df tn a
  /\ (forall other : string,
        tables a1 !! other
        = if String.eqb other tn then Some df else tables a !! other).
Proof.
  intros Hq. cbn zeta. unfold execute_query, store_data.
  cbn [tables queries]. rewrite lookup_insert_eq, Hq. cbn [fst snd queries].
  repeat split.
  - now rewrite insert_insert_eq.
  - intros other. destruct (String.eqb other tn) eqn:E.
    + apply String.eqb_eq in E. subst. apply lookup_insert_eq.
    + apply String.eqb_neq in E.
      rewrite !lookup_insert_ne by congruence. reflexivity.
Qed.

Lemma store_then_query_witness :
  contains LIMIT (upper (list_ascii_of_string "SELECT * FROM pipeline_data"))
  = false
  /\ snd (execute_query "t0" "SELECT * FROM pipeline_data" default_table
            (store_data Samples.ten_rows default_table
               (store_data Samples.ids default_table init)))
     = Samples.ten_rows.
Proof.
  split; [reflexivity|].
  exact (proj1 (store_then_query "t0" "SELECT * FROM pipeline_data"
                  default_table init Samples.ids Samples.ten_rows eq_refl)).
Defined.




End StoreMore.

(* ===================================================================== *)
(** * Further facts: the cleaning stage *)
(* ===================================================================== *)

Section CleanMore.

Import Notions.

Lemma existsb_incl {A} (f : A -> bool) (l k : list A) :
  (forall x, In x l -> In x k) -> existsb f k = false -> existsb f l = false.
Proof.
  intros Hsub Hk. destruct (existsb f l) eqn:E; [|reflexivity].
  apply existsb_exists in E as (x & Hx & Hf).
  assert (existsb f k = true) by (apply existsb_exists; eauto). congruence.
Qed.

(** The rows kept by the first-occurrence filter carry no flag when the
    filter is run again, even from a smaller memory of seen rows. *)
Lemma kept_unflagged (rs : list row) :
  forall seen seen' : list row,
    (forall x, In x seen' -> In x seen) ->
    let kept := keep_unflagged rs (duplicated_from seen rs) in
    duplicated_from seen' kept = repeat false (length kept).
Proof.
  induction rs as [|r rs IH]; intros seen seen' Hsub; cbn zeta; simpl.
  - reflexivity.
  - destruct (existsb (row_eqb r) seen) eqn:E.
    + apply IH. intros x Hx. right. auto.
    + simpl. rewrite (existsb_incl _ seen' seen Hsub E). f_equal.
      apply IH. intros x [<-|Hx]; [now left | right; auto].
Qed.

Lemma keep_all (rs : list row) :
  keep_unflagged rs (repeat false (length rs)) = rs.
Proof. induction rs as [|r rs IH]; simpl; [reflexivity | now rewrite IH]. Qed.

Lemma kept_and_flagged (rs : list row) :
  forall seen : list row,
    (length (keep_unflagged rs (duplicated_from seen rs))
     + length (List.filter (fun b : bool => b) (duplicated_from seen rs))
     = length rs)%nat.
Proof.
  induction rs as [|r rs IH]; intros seen; simpl; [reflexivity|].
  specialize (IH (r :: seen)).
  destruct (existsb (row_eqb r) seen); simpl; lia.
Qed.

Lemma filter_repeat_false (n : nat) :
  List.filter (fun b : bool => b) (repeat false n) = [].
Proof. induction n; simpl; auto. Qed.

(** X12. [drop_duplicates] removes exactly the rows [duplicated] flags, which
    are the rows the quality checker counts as duplicates; the result has
    no duplicate left, and a second pass changes nothing. *)
Theorem drop_duplicates_spec (df : DataFrame) :
  let dd := drop_duplicates df in
  columns dd = columns df
  /\ (len dd + Quality.duplicate_rows df = len df)%nat
  /\ Quality.duplicate_rows dd = 0%nat
  /\ drop_duplicates dd = dd.
Proof.
  cbn zeta. unfold Quality.duplicate_rows, len.
  destruct (is_empty df) eqn:Hdf.
  - assert (Hdd : drop_duplicates df = df)
      by (unfold drop_duplicates; now rewrite Hdf).
    assert (Hd : duplicated df = []) by (unfold duplicated; now rewrite Hdf).
    rewrite !Hdd, Hd. simpl. repeat split; auto.
  - set (kept := keep_unflagged (rows df) (duplicated_from [] (rows df))).
    assert (Hd : duplicated df = duplicated_from [] (rows df))
      by (unfold duplicated; now rewrite Hdf).
    assert (Hdd : drop_duplicates df = mkDataFrame (columns df) kept).
    { unfold drop_duplicates. now rewrite Hdf, Hd. }
    pose proof (kept_unflagged (rows df) [] [] (fun x H => H)) as Hk.
    cbn zeta in Hk. fold kept in Hk.
    rewrite !Hdd, Hd. cbn [rows columns].
    split; [reflexivity|]. split; [apply kept_and_flagged|].
    unfold drop_duplicates, duplicated.
    destruct (is_empty (mkDataFrame (columns df) kept)); cbn [rows columns].
    + split; reflexivity.
    + rewrite Hk, filter_repeat_false, keep_all. split; reflexivity.
Qed.

(** ** Filling the gaps *)




























End CleanMore.

(* ===================================================================== *)
(** * Further facts: the alert registry *)
(* ===================================================================== *)

Section AlertFacts.

Import Alerts.

Lemma filter_filter {A} (f g : A -> bool) (l : list A) :
  List.filter f (List.filter g l) = List.filter (fun x => f x && g x) l.
Proof.
  induction l as [|a l IH]; simpl; [reflexivity|].
  destruct (g a); simpl; [|now rewrite andb_false_r].
  rewrite andb_true_r. destruct (f a); now rewrite IH.
Qed.

Lemma is_active_after_new (m : AlertManager) (a : Alert) (x : nat) :
  (x < length (objects m))%nat ->
  is_active (mkManager (objects m ++ [a]) (alerts m)) x = is_active m x.
Proof.
  intros H. unfold is_active. simpl. now rewrite lookup_app_l.
Qed.

(** X21. A new alert is unacknowledged, is returned by reference, and comes
    last both in the list of all alerts and in the list of active ones;
    the alerts already present keep their state and their order. *)
Theorem create_alert_appends (now : string) (sev : AlertSeverity)
  (msg src : string) (m : AlertManager) :
  valid m = true ->
  let '(m', alert) := create_alert now sev msg src m in
  objects m' !! alert = Some (mkAlert sev msg src now false)
  /\ get_all_alerts m' = get_all_alerts m ++ [alert]
  /\ get_active_alerts m' = get_active_alerts m ++ [alert]
  /\ valid m' = true.
Proof.
  intros Hv. unfold create_alert, new_alert. cbn [objects alerts].
  unfold valid in Hv. rewrite forallb_forall in Hv.
  assert (Hnew : (objects m ++ [mkAlert sev msg src now false])
                 !! length (objects m)
                 = Some (mkAlert sev msg src now false)).
  { rewrite lookup_app_r by lia. now rewrite Nat.sub_diag. }
  repeat split.
  - exact Hnew.
  - unfold get_active_alerts. cbn [alerts]. rewrite List.filter_app.
    f_equal.
    + apply filter_ext_in. intros x Hx. unfold is_active. cbn [objects].
      rewrite lookup_app_l; [reflexivity|]. apply Nat.ltb_lt. now apply Hv.
    + simpl. unfold is_active. cbn [objects]. now rewrite Hnew.
  - unfold valid. cbn [objects alerts]. rewrite forallb_app. simpl.
    rewrite length_app. simpl. apply andb_true_intro. split.
    + apply forallb_forall. intros x Hx. apply Nat.ltb_lt.
      specialize (Hv x Hx). apply Nat.ltb_lt in Hv. lia.
    + rewrite andb_true_r. apply Nat.ltb_lt. lia.
Qed.

Lemma create_alert_appends_witness :
  valid Fixtures.two_alerts = true
  /\ get_active_alerts
       (fst (create_alert "t2" WARNING "slow" "Glue" Fixtures.two_alerts))
     = [0; 1; 2]%nat.
Proof.
  split; [reflexivity|].
  pose proof (create_alert_appends "t2" WARNING "slow" "Glue"
                Fixtures.two_alerts eq_refl) as H.
  destruct (create_alert "t2" WARNING "slow" "Glue" Fixtures.two_alerts)
    as [m' alert] eqn:E.
  destruct H as (_ & _ & H & _). simpl. rewrite H.
  inversion E. reflexivity.
Defined.

Lemma is_active_after_acknowledge (m : AlertManager) (alert x : nat) :
  is_active (acknowledge_alert alert m) x
  = negb (Nat.eqb x alert) && is_active m x.
Proof.
  unfold is_active, acknowledge_alert. cbn [objects].
  destruct (Nat.eqb x alert) eqn:E.
  - apply Nat.eqb_eq in E. subst. rewrite list_lookup_alter_eq.
    now destruct (objects m !! alert).
  - apply Nat.eqb_neq in E. rewrite list_lookup_alter_ne by congruence.
    reflexivity.
Qed.

(** X22. Acknowledging an alert takes exactly this alert out of the active
    list, whoever holds the reference; the list of all alerts and the
    other alerts are left as they are, and a second acknowledgement
    changes nothing. *)
Theorem acknowledge_alert_deactivates (alert : nat) (m : AlertManager) :
  let m' := acknowledge_alert alert m in
  get_active_alerts m'
  = List.filter (fun x => negb (Nat.eqb x alert)) (get_active_alerts m)
  /\ get_all_alerts m' = get_all_alerts m
  /\ is_active m' alert = false
  /\ get_active_alerts (acknowledge_alert alert m') = get_active_alerts m'.
Proof.
  cbn zeta.
  assert (H1 : forall m0, get_active_alerts (acknowledge_alert alert m0)
               = List.filter (fun x => negb (Nat.eqb x alert))
                   (get_active_alerts m0)).
  { intros m0. unfold get_active_alerts. rewrite filter_filter.
    apply filter_ext. intros x. apply is_active_after_acknowledge. }
  repeat split.
  - apply H1.
  - rewrite is_active_after_acknowledge. now rewrite Nat.eqb_refl.
  - rewrite (H1 (acknowledge_alert alert m)), H1, filter_filter.
    apply filter_ext. intros x. now destruct (Nat.eqb x alert).
Qed.

(** X23. Clearing keeps exactly the active alerts, in order: afterwards every
    alert of the registry is active, the active list is what it was, and
    clearing again changes nothing. *)
Theorem clear_acknowledged_keeps_active (m : AlertManager) :
  let m' := clear_acknowledged m in
  get_all_alerts m' = get_active_alerts m
  /\ get_active_alerts m' = get_active_alerts m
  /\ forallb (is_active m') (get_all_alerts m') = true
  /\ clear_acknowledged m' = m'.
Proof.
  cbn zeta. unfold clear_acknowledged, get_all_alerts, get_active_alerts.
  cbn [alerts objects].
  assert (Hsame : forall x, is_active
                    (mkManager (objects m) (List.filter (is_active m) (alerts m)))
                    x = is_active m x) by reflexivity.
  assert (Hidem : List.filter (is_active m) (List.filter (is_active m) (alerts m))
                  = List.filter (is_active m) (alerts m)).
  { rewrite filter_filter. apply filter_ext. intros x.
    now destruct (is_active m x). }
  repeat split.
  - rewrite (filter_ext _ _ Hsame). exact Hidem.
  - apply forallb_forall. intros x Hx. rewrite Hsame.
    apply filter_In in Hx. tauto.
  - f_equal. rewrite (filter_ext _ _ Hsame). exact Hidem.
Qed.

End AlertFacts.

(* ===================================================================== *)
(** * Further facts: enrichment, orchestration and the pipeline run *)
(* ===================================================================== *)

Section RunFacts.

Import Orchestrator App.

(** X16. Enrichment never changes an input column: on a rectangular frame
    whose labels do not clash with the assigned ones, every input column
    is found in the result with the values it had, and the labels of the
    input come first, in their order. *)
Theorem transform_data_keeps_input (sqrt : Q -> Q) (hash : row -> Z)
  (now : string) (df : DataFrame) :
  rectangular df = true ->
  distinct (names df ++ Lambda.assigned df) = true ->
  let out := Lambda.transform_data sqrt hash now df in
  rectangular out = true
  /\ firstn (shape1 df) (names out) = names df
  /\ (forall n, In n (names df) -> get_column n out = get_column n df).
Proof.
  intros Hr Hd. apply distinct_NoDup in Hd. cbn zeta.
  assert (H : exists extra,
            extends df (Lambda.transform_data sqrt hash now df) extra).
  { destruct (numeric_columns df) as [|c nc] eqn:E.
    - eexists. now apply transform_data_plain.
    - eexists.
      apply (transform_data_numeric sqrt hash now df Hr Hd).
      rewrite E. discriminate. }
  destruct H as (extra & Hrect & _ & Hn & Hg). repeat split; auto.
  rewrite Hn. unfold shape1, names. rewrite <- (length_map fst (columns df)).
  rewrite firstn_app, Nat.sub_diag, firstn_all. simpl.
  now rewrite app_nil_r.
Qed.

Lemma transform_data_keeps_input_witness :
  rectangular Samples.flat = true
  /\ distinct (names Samples.flat ++ Lambda.assigned Samples.flat) = true
  /\ get_column "v"
       (Lambda.transform_data (fun q => q) (fun _ => 0%Z) "t0" Samples.flat)
     = get_column "v" Samples.flat.
Proof.
  split; [reflexivity|]. split; [reflexivity|].
  destruct (transform_data_keeps_input (fun q => q) (fun _ => 0%Z) "t0"
              Samples.flat eq_refl eq_refl) as (_ & _ & H).
  apply H. right. now left.
Defined.

(** X17. The processing, transformation and query stages each append one
    entry to the execution log, whose [records] field is the row count
    of its data; processing and transformation touch neither the storage
    nor the tables, the query stage changes the default table only. *)
Theorem stages_log_one_entry (E : env) (df : DataFrame)
  (o : PipelineOrchestrator) :
  let '(o1, r1) := process_data E df o in
  let '(o2, r2) := transform_data E df o in
  let '(o3, r3) := setup_query E df o in
  (get_execution_log o1 = get_execution_log o ++ [r1]
   /\ stage r1 = "processing" /\ records r1 = len (data r1)
   /\ aws o1 = aws o)
  /\ (get_execution_log o2 = get_execution_log o ++ [r2]
      /\ stage r2 = "transformation" /\ records r2 = len (data r2)
      /\ aws o2 = aws o)
  /\ (get_execution_log o3 = get_execution_log o ++ [r3]
      /\ stage r3 = "query" /\ records r3 = len (data r3)
      /\ s3 (aws o3) = s3 (aws o)
      /\ Athena.queries (athena (aws o3)) = Athena.queries (athena (aws o))
      /\ forall name : string,
           Athena.tables (athena (aws o3)) !! name
           = if String.eqb name Athena.default_table then Some df
             else Athena.tables (athena (aws o)) !! name).
Proof.
  unfold process_data, transform_data, setup_query, get_execution_log. simpl.
  repeat split.
  intros name. destruct (String.eqb name Athena.default_table) eqn:En.
  - apply String.eqb_eq in En. subst. apply lookup_insert_eq.
  - apply String.eqb_neq in En. apply lookup_insert_ne. congruence.
Qed.

Lemma ingest_data_written (E : env) (df : DataFrame)
  (o : PipelineOrchestrator) :
  writable E (S3.csv_path (s3 (aws o)) (ingest_key E)) df = true ->
  ingest_data E df o
  = (mkOrchestrator
       (mkAWS (S3.mkS3 (<[ingest_key E := df]> (S3.storage (s3 (aws o))))
                       (S3.base_path (s3 (aws o))))
              (athena (aws o)))
       (execution_log o
        ++ [mkResult "ingestion" df (Some (ingest_key E)) (now E) (len df)
                     None]),
     Returned (mkResult "ingestion" df (Some (ingest_key E)) (now E) (len df)
                        None)).
Proof.
  intros Hw. unfold ingest_data, S3.upload_data.
  unfold S3.csv_path in *. cbn [S3.base_path]. now rewrite Hw.
Qed.

(** X18. Two ingestions within the same second get the same key: the storage
    keeps the second frame only, while the execution log keeps both
    results. *)
Theorem ingest_same_second (E1 E2 : env) (df1 df2 : DataFrame)
  (o : PipelineOrchestrator) :
  stamp E1 = stamp E2 ->
  writable E1 (S3.csv_path (s3 (aws o)) (ingest_key E1)) df1 = true ->
  writable E2 (S3.csv_path (s3 (aws o)) (ingest_key E2)) df2 = true ->
  let o1 := fst (ingest_data E1 df1 o) in
  let o2 := fst (ingest_data E2 df2 o1) in
  ingest_key E1 = ingest_key E2
  /\ S3.storage (s3 (aws o2))
     = <[ingest_key E2 := df2]> (S3.storage (s3 (aws o)))
  /\ S3.storage (s3 (aws o2)) !! ingest_key E1 = Some df2
  /\ map data (execution_log o2) = map data (execution_log o) ++ [df1; df2].
Proof.
  intros Hs Hw1 Hw2. cbn zeta.
  assert (Hk : ingest_key E1 = ingest_key E2)
    by (unfold ingest_key; now rewrite Hs).
  rewrite (ingest_data_written E1 df1 o Hw1). cbn [fst].
  rewrite ingest_data_written by exact Hw2.
  cbn [fst aws s3 athena execution_log S3.storage].
  rewrite Hk, insert_insert_eq. repeat split.
  - apply lookup_insert_eq.
  - rewrite !map_app, <- app_assoc. reflexivity.
Qed.

Lemma ingest_same_second_witness :
  stamp Samples.quiet = stamp Samples.quiet
  /\ writable Samples.quiet
       (S3.csv_path (s3 (aws init)) (ingest_key Samples.quiet)) Samples.ids
     = true
  /\ writable Samples.quiet
       (S3.csv_path (s3 (aws init)) (ingest_key Samples.quiet)) Samples.flat
     = true
  /\ S3.storage
       (s3 (aws (fst (ingest_data Samples.quiet Samples.flat
                        (fst (ingest_data Samples.quiet Samples.ids init))))))
     !! ingest_key Samples.quiet
     = Some Samples.flat.
Proof.
  split; [reflexivity|]. split; [reflexivity|]. split; [reflexivity|].
  destruct (ingest_same_second Samples.quiet Samples.quiet Samples.ids
              Samples.flat init eq_refl eq_refl eq_refl) as (_ & _ & H & _).
  exact H.
Defined.

(** The path the CSV copy of a run is written to. *)
Lemma run_csv_path (R : run_env) (s : session) (df : DataFrame) :
  S3.csv_path
    (S3.mkS3 (<[ingest_key (at_ingest R) := df]>
                (S3.storage (s3 (aws (orchestrator s)))))
             (S3.base_path (s3 (aws (orchestrator s)))))
    (ingest_key (at_ingest R))
  = S3.csv_path (s3 (aws (orchestrator s))) (ingest_key (at_ingest R)).
Proof. reflexivity. Qed.

(** X19. A run whose CSV copy can be written and whose measured duration is
    not zero: the four stages are logged in
    order, the table [pipeline_data] holds the enriched frame, the raw
    frame is stored under the ingest key, the result of the run is kept,
    and the metrics count one more successful run with the number of
    input rows (not of the rows left after deduplication). *)
Theorem run_pipeline_success (R : run_env) (df : DataFrame) (s : session) :
  writable (at_ingest R)
    (S3.csv_path (s3 (aws (orchestrator s))) (ingest_key (at_ingest R))) df
  = true ->
  Qeq_bool (elapsed R) 0 = false ->
  let s' := run_pipeline R df s in
  let cleaned :=
    Glue.process_data (now (at_process R)) (noise (at_process R)) df in
  let enriched :=
    Lambda.transform_data (sqrt (at_transform R)) (hash (at_transform R))
      (now (at_transform R)) cleaned in
  map stage (execution_log (orchestrator s'))
  = map stage (execution_log (orchestrator s))
    ++ ["ingestion"; "processing"; "transformation"; "query"]
  /\ map data (execution_log (orchestrator s'))
     = map data (execution_log (orchestrator s))
       ++ [df; cleaned; enriched; enriched]
  /\ Athena.tables (athena (aws (orchestrator s'))) !! Athena.default_table
     = Some enriched
  /\ S3.storage (s3 (aws (orchestrator s'))) !! ingest_key (at_ingest R)
     = Some df
  /\ last_result s'
     = Some (mkPipelineResult df cleaned enriched (elapsed R) (at_store R))
  /\ Metrics.runs (metrics s')
     = Metrics.runs (metrics s)
       ++ [Metrics.mkRun (at_record R) (elapsed R) true (Z.of_nat (len df))]
  /\ Metrics.get_total_records (metrics s')
     = (Metrics.get_total_records (metrics s) + Z.of_nat (len df))%Z
  /\ (len enriched <= len df)%nat
  /\ length (pipeline_history s') = S (length (pipeline_history s)).
Proof.
  intros Hw He. cbn zeta. unfold run_pipeline, ingest_data, S3.upload_data.
  rewrite run_csv_path, Hw.
  unfold process_data, transform_data, setup_query. cbn zeta. rewrite He.
  simpl.
  rewrite !map_app, <- !app_assoc. simpl.
  repeat split.
  - apply lookup_insert_eq.
  - apply lookup_insert_eq.
  - destruct (shape_transform_data (sqrt (at_transform R))
                (hash (at_transform R)) (now (at_transform R))
                (Glue.process_data (now (at_process R))
                   (noise (at_process R)) df)) as [-> _].
    apply shape_process_data.
  - rewrite length_app. simpl. lia.
Qed.

Lemma run_pipeline_success_witness :
  writable (at_ingest Fixtures.calm)
    (S3.csv_path (s3 (aws (orchestrator Fixtures.fresh_session)))
       (ingest_key (at_ingest Fixtures.calm))) Samples.ids
  = true
  /\ Qeq_bool (elapsed Fixtures.calm) 0 = false
  /\ map stage (execution_log
                  (orchestrator
                     (run_pipeline Fixtures.calm Samples.ids
                        Fixtures.fresh_session)))
     = ["ingestion"; "processing"; "transformation"; "query"].
Proof.
  split; [reflexivity|]. split; [reflexivity|].
  exact (proj1 (run_pipeline_success Fixtures.calm Samples.ids
                  Fixtures.fresh_session eq_refl eq_refl)).
Defined.

(** X20. A run whose CSV copy cannot be written stops at ingestion: nothing is
    logged, no table is registered, the previous result and the history
    stay, and the metrics record a failed run of duration 0 with no
    records.  The raw frame is nevertheless left in the storage map. *)
Theorem run_pipeline_write_failure (R : run_env) (df : DataFrame)
  (s : session) :
  writable (at_ingest R)
    (S3.csv_path (s3 (aws (orchestrator s))) (ingest_key (at_ingest R))) df
  = false ->
  let s' := run_pipeline R df s in
  execution_log (orchestrator s') = execution_log (orchestrator s)
  /\ athena (aws (orchestrator s')) = athena (aws (orchestrator s))
  /\ last_result s' = last_result s
  /\ pipeline_history s' = pipeline_history s
  /\ Metrics.runs (metrics s')
     = Metrics.runs (metrics s) ++ [Metrics.mkRun (at_except R) 0 false 0]
  /\ Metrics.get_total_records (metrics s')
     = Metrics.get_total_records (metrics s)
  /\ S3.storage (s3 (aws (orchestrator s'))) !! ingest_key (at_ingest R)
     = Some df.
Proof.
  intros Hw. cbn zeta. unfold run_pipeline, ingest_data, S3.upload_data.
  rewrite run_csv_path, Hw. unfold on_exception. simpl. repeat split.
  apply lookup_insert_eq.
Qed.

Lemma run_pipeline_write_failure_witness :
  writable (at_ingest Fixtures.stormy)
    (S3.csv_path (s3 (aws (orchestrator Fixtures.fresh_session)))
       (ingest_key (at_ingest Fixtures.stormy))) Samples.ids
  = false
  /\ execution_log
       (orchestrator
          (run_pipeline Fixtures.stormy Samples.ids Fixtures.fresh_session))
     = [].
Proof.
  split; [reflexivity|].
  exact (proj1 (run_pipeline_write_failure Fixtures.stormy Samples.ids
                  Fixtures.fresh_session eq_refl)).
Defined.

End RunFacts.

(* ===================================================================== *)
(** * Further facts: cleaned frames under the quality checker *)
(* ===================================================================== *)

Section CleanedQuality.

Import Notions Quality.











End CleanedQuality.
